(** * AirBnB_clone: the entity base class [models/base_model.py]

    A shallow embedding of [BaseModel] (identity, timestamps, conversion to
    and from a keyword mapping) together with the parts of the Python
    standard library it calls ([datetime.now], [datetime.isoformat],
    [datetime.fromisoformat], [uuid.uuid4]) and the storage registry it
    registers with.

    Conventions.
    - A Python [dict] is an association list in insertion order; its keys
      are unique (predicate [dict_wf], preserved by every operation).
    - Instances live in a heap of cells addressed by position; the storage
      registry holds addresses, so a later mutation of an instance is seen
      through the registry, as in Python.
    - Operations run in a state-and-exception monad: the world reached at
      the moment an exception is raised is kept (Python does not roll back).
    - A call binds its keyword arguments before the body runs
      ([bind_keywords]): a keyword named [self] is a TypeError.
    - [setattr] goes through the descriptors of the class: [__dict__]
      replaces the attribute dictionary, [__weakref__] is read-only,
      [__class__] takes a class only.
    - A timestamp is naive or carries a fixed UTC offset. What
      [datetime.fromisoformat] accepts depends on the Python version; the
      parser is a parameter ([IsoParser]) of which only the law that it
      reads back what [isoformat] prints is used. *)

From Stdlib Require Import ZArith String Ascii List Bool Lia.
From stdpp Require Import base tactics option list strings.
Import ListNotations.

Local Open Scope string_scope.
Local Open Scope Z_scope.

(** ** Timestamps: [datetime.datetime], naive or with a fixed UTC offset *)

Module Datetime.

Definition is_leap (y : Z) : bool :=
  (y mod 4 =? 0) && (negb (y mod 100 =? 0) || (y mod 400 =? 0)).

Definition days_in_month (y m : Z) : Z :=
  if m =? 2 then (if is_leap y then 29 else 28)
  else if (m =? 4) || (m =? 6) || (m =? 9) || (m =? 11) then 30
  else 31.

(** [tzinfo]: [None] for a naive datetime, [Some off] for
    [timezone(timedelta(microseconds=off))]. [timezone] wants an offset
    strictly between -24 h and +24 h. Offsets other than zero and shorter
    than one second are left out: CPython prints them but reads the text
    back as UTC, so [fromisoformat] never yields one. *)
Definition offset_ok (tz : option Z) : bool :=
  match tz with
  | None => true
  | Some off =>
      (off =? 0) || ((1000000 <=? Z.abs off) && (Z.abs off <? 86400000000))
  end.

(** The range checks of the [datetime] constructor (MINYEAR = 1,
    MAXYEAR = 9999). *)
Definition fields_ok (y mo d h mi s us : Z) (tz : option Z) : bool :=
  (1 <=? y) && (y <=? 9999) &&
  (1 <=? mo) && (mo <=? 12) &&
  (1 <=? d) && (d <=? days_in_month y mo) &&
  (0 <=? h) && (h <=? 23) &&
  (0 <=? mi) && (mi <=? 59) &&
  (0 <=? s) && (s <=? 59) &&
  (0 <=? us) && (us <=? 999999) &&
  offset_ok tz.

(** A [datetime] object always satisfies the range checks; the record
    carries the evidence, so no ill-formed timestamp can be written down. *)
Record datetime : Type := mk_datetime {
  year : Z; month : Z; day : Z;
  hour : Z; minute : Z; second : Z; microsecond : Z;
  utcoffset : option Z;
  datetime_ok :
    fields_ok year month day hour minute second microsecond utcoffset = true
}.

Definition bool_true_dec (b : bool) : {b = true} + {b = false} :=
  match b with true => left eq_refl | false => right eq_refl end.

(** [datetime(y, mo, d, h, mi, s, us, tzinfo)]: [None] stands for the
    ValueError of an out-of-range field. *)
Definition make (y mo d h mi s us : Z) (tz : option Z) : option datetime :=
  match bool_true_dec (fields_ok y mo d h mi s us tz) with
  | left H => Some (mk_datetime y mo d h mi s us tz H)
  | right _ => None
  end.

(** *** Comparison: [datetime._cmp] *)

Definition lex (c1 c2 : comparison) : comparison :=
  match c1 with Eq => c2 | _ => c1 end.

(** Lexicographic on the seven fields of the wall time. *)
Definition compare_fields (a b : datetime) : comparison :=
  lex (year a ?= year b)
  (lex (month a ?= month b)
  (lex (day a ?= day b)
  (lex (hour a ?= hour b)
  (lex (minute a ?= minute b)
  (lex (second a ?= second b)
       (microsecond a ?= microsecond b)))))).

(** [_days_before_year], [_days_before_month], [toordinal]. *)
Definition days_before_year (y : Z) : Z :=
  let p := y - 1 in p * 365 + p / 4 - p / 100 + p / 400.

Definition days_before_month (y m : Z) : Z :=
  nth (Z.to_nat m) [0; 0; 31; 59; 90; 120; 151; 181; 212; 243; 273; 304; 334] 0
  + (if (2 <? m) && is_leap y then 1 else 0).

Definition toordinal (d : datetime) : Z :=
  days_before_year (year d) + days_before_month (year d) (month d) + day d.

(** The wall time in microseconds since the start of day 0. *)
Definition wall_microseconds (d : datetime) : Z :=
  (((toordinal d * 24 + hour d) * 60 + minute d) * 60 + second d) * 1000000
  + microsecond d.

(** With equal offsets (or none on either side) the wall times are
    compared; with different offsets the instants; [None] stands for the
    TypeError of ordering a naive against an aware datetime. *)
Definition compare (a b : datetime) : option comparison :=
  match utcoffset a, utcoffset b with
  | None, None => Some (compare_fields a b)
  | Some oa, Some ob =>
      if oa =? ob then Some (compare_fields a b)
      else Some ((wall_microseconds a - oa) ?= (wall_microseconds b - ob))
  | _, _ => None
  end.

(** [a <= b] evaluates to [True]. *)
Definition leb (a b : datetime) : bool :=
  match compare a b with
  | Some Lt | Some Eq => true
  | _ => false
  end.

(** [a < b] evaluates to [True]. *)
Definition ltb (a b : datetime) : bool :=
  match compare a b with
  | Some Lt => true
  | _ => false
  end.

(** *** Printing: [datetime.isoformat()] *)

Definition digit (n : Z) : ascii :=
  ascii_of_nat (48 + Z.to_nat n).

(** [zfill k n rest]: the [k] low decimal digits of [n], most significant
    first, followed by [rest] (the "%0kd" conversion for [0 <= n < 10^k]). *)
Fixpoint zfill (k : nat) (n : Z) (rest : string) : string :=
  match k with
  | O => rest
  | S k' => zfill k' (n / 10) (String (digit (n mod 10)) rest)
  end.

(** The fraction is printed only when it is not zero. *)
Definition format_fraction (us : Z) (rest : string) : string :=
  if us =? 0 then rest else String "." (zfill 6 us rest).

(** [_format_offset] without the sign: [HH:MM], then [:SS] and the
    fraction when they are not zero. *)
Definition format_clock (a : Z) : string :=
  let hh := a / 3600000000 in
  let r := a mod 3600000000 in
  let mm := r / 60000000 in
  let r2 := r mod 60000000 in
  let ss := r2 / 1000000 in
  let f := r2 mod 1000000 in
  zfill 2 hh (String ":" (zfill 2 mm
    (if (ss =? 0) && (f =? 0) then EmptyString
     else String ":" (zfill 2 ss (format_fraction f EmptyString))))).

Definition format_offset (tz : option Z) : string :=
  match tz with
  | None => EmptyString
  | Some off =>
      String (if off <? 0 then "-"%char else "+"%char)
        (format_clock (Z.abs off))
  end.

Definition isoformat (d : datetime) : string :=
  zfill 4 (year d) (String "-"
  (zfill 2 (month d) (String "-"
  (zfill 2 (day d) (String "T"
  (zfill 2 (hour d) (String ":"
  (zfill 2 (minute d) (String ":"
  (zfill 2 (second d)
     (format_fraction (microsecond d)
        (format_offset (utcoffset d))))))))))))).

End Datetime.

(** ** The parser behind [datetime.fromisoformat]

    The strings the parser accepts changed between Python versions: 3.7
    reads what [isoformat] prints and its shortened forms, 3.11 most of
    ISO 8601. The model takes the parser as a parameter: [None] stands
    for the ValueError of a string it does not accept. The one law used is
    the one the library documents, that it is the inverse of
    [isoformat]. *)
Class IsoParser : Type := {
  iso_parse : string -> option Datetime.datetime;
  iso_parse_isoformat :
    forall d : Datetime.datetime, iso_parse (Datetime.isoformat d) = Some d
}.

(** ** A reader of the text [isoformat] prints

    One parser with the law above, written out so that the examples can
    be run: it reads [YYYY-MM-DD], then optionally one separator
    character and [HH[:MM[:SS[.fff[fff]]]]], then optionally a sign and an
    offset in the same form. It does not stand for the parser of the
    library, which a newer Python lets accept more (a final Z, dates
    without dashes): the theorems hold for every parser with the law,
    and this one only serves to evaluate the code on concrete mappings,
    on strings that every version reads alike. *)

Module IsoReader.
Import Datetime.

Definition digit_val (c : ascii) : option Z :=
  let n := Z.of_nat (nat_of_ascii c) in
  if (48 <=? n) && (n <=? 57) then Some (n - 48) else None.

Fixpoint read_digits (k : nat) (acc : Z) (s : string) : option (Z * string) :=
  match k with
  | O => Some (acc, s)
  | S k' =>
      match s with
      | String c s' =>
          match digit_val c with
          | Some v => read_digits k' (10 * acc + v) s'
          | None => None
          end
      | EmptyString => None
      end
  end.

Definition expect (c : ascii) (s : string) : option string :=
  match s with
  | String c' s' => if Ascii.eqb c' c then Some s' else None
  | EmptyString => None
  end.

(** An optional fraction of six or three digits, in microseconds. *)
Definition read_fraction (s : string) : option (Z * string) :=
  match expect "." s with
  | None => Some (0, s)
  | Some s1 =>
      match read_digits 6 0 s1 with
      | Some r => Some r
      | None =>
          match read_digits 3 0 s1 with
          | Some (ms, s2) => Some (ms * 1000, s2)
          | None => None
          end
      end
  end.

(** Hour, minute, second, microsecond and what follows them; the parts
    left out are zero. *)
Definition read_clock (s : string) : option (Z * Z * Z * Z * string) :=
  match read_digits 2 0 s with
  | None => None
  | Some (h, s1) =>
      match expect ":" s1 with
      | None => Some (h, 0, 0, 0, s1)
      | Some s2 =>
          match read_digits 2 0 s2 with
          | None => None
          | Some (mi, s3) =>
              match expect ":" s3 with
              | None => Some (h, mi, 0, 0, s3)
              | Some s4 =>
                  match read_digits 2 0 s4 with
                  | None => None
                  | Some (sec, s5) =>
                      match read_fraction s5 with
                      | None => None
                      | Some (us, s6) => Some (h, mi, sec, us, s6)
                      end
                  end
              end
          end
      end
  end.

Definition read_date (s : string) : option (Z * Z * Z * string) :=
  match read_digits 4 0 s with
  | None => None
  | Some (y, s1) =>
      match expect "-" s1 with
      | None => None
      | Some s2 =>
          match read_digits 2 0 s2 with
          | None => None
          | Some (mo, s3) =>
              match expect "-" s3 with
              | None => None
              | Some s4 =>
                  match read_digits 2 0 s4 with
                  | None => None
                  | Some (d, s5) => Some (y, mo, d, s5)
                  end
              end
          end
      end
  end.

(** Nothing, or a sign and the offset up to the end of the string. *)
Definition read_offset (s : string) : option (option Z) :=
  match s with
  | EmptyString => Some None
  | String c s' =>
      if Ascii.eqb c "+" || Ascii.eqb c "-" then
        match read_clock s' with
        | Some (h, mi, sec, us, EmptyString) =>
            let total := ((h * 60 + mi) * 60 + sec) * 1000000 + us in
            Some (Some (if Ascii.eqb c "-" then - total else total))
        | _ => None
        end
      else None
  end.

Definition parse (s : string) : option datetime :=
  match read_date s with
  | None => None
  | Some (y, mo, d, EmptyString) => make y mo d 0 0 0 0 None
  | Some (y, mo, d, String _ t) =>
      match read_clock t with
      | None => None
      | Some (h, mi, sec, us, rest) =>
          match read_offset rest with
          | None => None
          | Some tz => make y mo d h mi sec us tz
          end
      end
  end.

End IsoReader.

(** ** Random identifiers: [uuid.uuid4()] and [str(UUID)] *)

Module UUID.

(** One lowercase hexadecimal digit. *)
Definition hexchar (n : Z) : ascii :=
  if n <? 10 then ascii_of_nat (48 + Z.to_nat n)
  else ascii_of_nat (87 + Z.to_nat n).

(** The [j]-th nibble of [n], counted from the least significant one. *)
Definition nibble (n : Z) (j : nat) : Z :=
  Z.land (Z.shiftr n (4 * Z.of_nat j)) 15.

(** [hex k n rest]: the [k] low nibbles of [n], most significant first,
    followed by [rest] (the "%0kx" conversion). *)
Fixpoint hex (k : nat) (n : Z) (rest : string) : string :=
  match k with
  | O => rest
  | S k' => String (hexchar (nibble n k')) (hex k' n rest)
  end.

(** [UUID(bytes=b, version=4).int] where [r] is the number read from the
    sixteen random bytes: the variant is set to RFC 4122 and the version
    nibble to 4. *)
Definition uuid4_int (r : Z) : Z :=
  let i := Z.land r (Z.ones 128) in
  let i := Z.land i (Z.lnot (Z.shiftl 0xc000 48)) in
  let i := Z.lor i (Z.shiftl 0x8000 48) in
  let i := Z.land i (Z.lnot (Z.shiftl 0xf000 64)) in
  Z.lor i (Z.shiftl 4 76).

(** [str(u)]: the 32 hexadecimal digits grouped 8-4-4-4-12. *)
Definition str (i : Z) : string :=
  let h := hex 32 i EmptyString in
  (substring 0 8 h ++ "-" ++ substring 8 4 h ++ "-" ++ substring 12 4 h
     ++ "-" ++ substring 16 4 h ++ "-" ++ substring 20 12 h)%string.

Definition is_hex (c : ascii) : bool :=
  let n := Z.of_nat (nat_of_ascii c) in
  ((48 <=? n) && (n <=? 57)) || ((97 <=? n) && (n <=? 102)).

Definition is_variant (c : ascii) : bool :=
  Ascii.eqb c "8" || Ascii.eqb c "9" || Ascii.eqb c "a" || Ascii.eqb c "b".

(** [matches pat s]: [s] has the shape [pat], where in [pat] the letter x
    stands for any hexadecimal digit, y for one of 8, 9, a, b, and every
    other character for itself. *)
Fixpoint matches (pat s : string) : bool :=
  match pat, s with
  | EmptyString, EmptyString => true
  | String p pat', String c s' =>
      (if Ascii.eqb p "x" then is_hex c
       else if Ascii.eqb p "y" then is_variant c
       else Ascii.eqb p c) && matches pat' s'
  | _, _ => false
  end.

(** The shape of a version-4 UUID in its canonical text form. *)
Definition uuid4_shaped (s : string) : bool :=
  matches "xxxxxxxx-xxxx-4xxx-yxxx-xxxxxxxxxxxx" s.

End UUID.

(** ** Python values, dictionaries, exceptions *)

#[local] Set Warnings "-register-all".
Inductive value : Type :=
  | VNone
  | VBool (b : bool)
  | VInt (n : Z)
  | VStr (s : string)
  | VDatetime (d : Datetime.datetime)
  | VList (l : list value)
  | VDict (l : list (string * value)).
#[local] Set Warnings "register-all".

Inductive exn : Type :=
  | TypeError
  | ValueError
  | AttributeError
  | KeyError
  | SystemError.

Inductive result (A : Type) : Type :=
  | Ok (a : A)
  | Raise (e : exn).
Arguments Ok {A} a.
Arguments Raise {A} e.

Section Dict.
Context {V : Type}.

(** A [dict] with string keys, in insertion order. *)
Definition dict : Type := list (string * V).

(** [d.get(k)]; [None] when the key is absent. *)
Fixpoint dict_get (k : string) (d : dict) : option V :=
  match d with
  | [] => None
  | (k', v) :: d' => if String.eqb k' k then Some v else dict_get k d'
  end.

(** [d[k] = v]: an existing key keeps its position, a new key goes last. *)
Fixpoint dict_set (k : string) (v : V) (d : dict) : dict :=
  match d with
  | [] => [(k, v)]
  | (k', v') :: d' =>
      if String.eqb k' k then (k, v) :: d' else (k', v') :: dict_set k v d'
  end.

(** [d.update(other)] *)
Definition dict_update (d other : dict) : dict :=
  fold_left (fun acc kv => dict_set (fst kv) (snd kv) acc) other d.

(** [d.copy()]: a new dict with the same items; the values are shared. *)
Definition dict_copy (d : dict) : dict := d.

Definition dict_keys (d : dict) : list string := map fst d.

(** The keys of a Python dict are pairwise different. *)
Definition dict_wf (d : dict) : Prop := NoDup (dict_keys d).

End Dict.
Arguments dict V : clear implicits.

(** [datetime.fromisoformat(v)]: TypeError unless [v] is a [str],
    ValueError for a string the parser does not accept. *)
Definition fromisoformat {L : IsoParser} (v : value)
    : result Datetime.datetime :=
  match v with
  | VStr s =>
      match iso_parse s with
      | Some d => Ok d
      | None => Raise ValueError
      end
  | _ => Raise TypeError
  end.

(** [v.isoformat()]: of the values here only a [datetime] has the method. *)
Definition isoformat (v : value) : result string :=
  match v with
  | VDatetime d => Ok (Datetime.isoformat d)
  | _ => Raise AttributeError
  end.

(** ** The world: heap of instances, clock, entropy, storage engine *)

(** Addresses are positions in the heap. *)
Abbreviation addr := nat.

(** An instance: [self.__class__.__name__] and [self.__dict__]. *)
Record instance : Type := mk_instance {
  inst_class : string;
  inst_dict : dict value
}.

Record world : Type := mk_world {
  heap : list instance;
  (** the [i]-th reading of the wall clock, and how many were taken *)
  clock : nat -> Datetime.datetime;
  clock_reads : nat;
  (** the [i]-th draw of sixteen random bytes, and how many were taken *)
  urandom : nat -> Z;
  urandom_reads : nat;
  (** [models.storage]: the registry and the content of the storage file *)
  storage_objects : dict addr;
  storage_file : option (dict (dict value))
}.

Definition with_heap (h : list instance) (w : world) : world :=
  mk_world h (clock w) (clock_reads w) (urandom w) (urandom_reads w)
           (storage_objects w) (storage_file w).

Definition with_objects (o : dict addr) (w : world) : world :=
  mk_world (heap w) (clock w) (clock_reads w) (urandom w) (urandom_reads w)
           o (storage_file w).

Definition with_file (f : option (dict (dict value))) (w : world) : world :=
  mk_world (heap w) (clock w) (clock_reads w) (urandom w) (urandom_reads w)
           (storage_objects w) f.

(** ** State and exceptions *)

Definition M (A : Type) : Type := world -> world * result A.

Definition ret {A} (a : A) : M A := fun w => (w, Ok a).

Definition raise {A} (e : exn) : M A := fun w => (w, Raise e).

Definition bind {A B} (m : M A) (f : A -> M B) : M B :=
  fun w =>
    match m w with
    | (w', Ok a) => f a w'
    | (w', Raise e) => (w', Raise e)
    end.

Definition lift {A} (r : result A) : M A := fun w => (w, r).

Declare Scope py_scope.
Delimit Scope py_scope with py.
Notation "x <- m ;; k" := (bind m (fun x => k))
  (at level 100, m at next level, right associativity) : py_scope.
Notation "m ;; k" := (bind m (fun _ => k))
  (at level 100, right associativity) : py_scope.
Local Open Scope py_scope.

(** [for x in l: body(x)] *)
Fixpoint for_each {A} (l : list A) (body : A -> M unit) : M unit :=
  match l with
  | [] => ret tt
  | x :: l' => body x ;; for_each l' body
  end.

(** The cell of a live instance. An address outside the heap does not
    occur for a live object; the model answers SystemError there. *)
Definition deref (self : addr) : M instance :=
  fun w =>
    match heap w !! self with
    | Some o => (w, Ok o)
    | None => (w, Raise SystemError)
    end.

(** The cell of [self] becomes [o]. *)
Definition store (self : addr) (o : instance) : M unit :=
  fun w => (with_heap (<[self := o]> (heap w)) w, Ok tt).

(** A new, empty instance of the class named [cls]. *)
Definition alloc (cls : string) : M addr :=
  fun w => (with_heap (heap w ++ [mk_instance cls []]) w, Ok (length (heap w))).

(** [getattr(self, name)]: the entity classes declare no class-level
    [id], [created_at] or [updated_at], so the lookup is in [__dict__]. *)
Definition getattr (self : addr) (name : string) : M value :=
  o <- deref self ;;
  match dict_get name (inst_dict o) with
  | Some v => ret v
  | None => raise AttributeError
  end.

(** [setattr(self, name, v)], that is [object.__setattr__]: a data
    descriptor of the class comes before the instance dictionary. A class
    written without [__slots__] has three of them. [__dict__] installs
    [v] as the attribute dictionary and wants a [dict]; [__weakref__] is
    not writable; [__class__] wants a class, which no value here is. Any
    other name is an entry of the attribute dictionary. *)
Definition setattr (self : addr) (name : string) (v : value) : M unit :=
  o <- deref self ;;
  if String.eqb name "__dict__" then
    match v with
    | VDict d => store self (mk_instance (inst_class o) d)
    | _ => raise TypeError
    end
  else if String.eqb name "__weakref__" then raise AttributeError
  else if String.eqb name "__class__" then raise TypeError
  else store self (mk_instance (inst_class o) (dict_set name v (inst_dict o))).

(** Binding the keywords of a call to a method with the parameters
    [self] and a double-starred mapping: every keyword goes into the
    mapping, except [self], which meets the parameter already bound to the
    receiver; the call then raises TypeError and the body does not run. *)
Definition bind_keywords (kwargs : dict value) : M unit :=
  match dict_get "self" kwargs with
  | Some _ => raise TypeError
  | None => ret tt
  end.

(** [datetime.datetime.now()] *)
Definition now : M Datetime.datetime :=
  fun w =>
    (mk_world (heap w) (clock w) (S (clock_reads w)) (urandom w)
              (urandom_reads w) (storage_objects w) (storage_file w),
     Ok (clock w (clock_reads w))).

(** [uuid.uuid4()] *)
Definition uuid4 : M Z :=
  fun w =>
    (mk_world (heap w) (clock w) (clock_reads w) (urandom w)
              (S (urandom_reads w)) (storage_objects w) (storage_file w),
     Ok (UUID.uuid4_int (urandom w (urandom_reads w)))).

(** ** The storage engine, [models.storage]

    Only the two entry points that [BaseModel] calls are described, each
    from the specification of the engine. *)

Module FileStorage.

(** Modelled from the spec: the composite key of an entity, missing with
    the storage engine's source: "composite key
    (["<ConcreteTypeName>.<id>"])", where [id] is a string. *)
Definition composite_key (cls : string) (id : string) : string :=
  (cls ++ "." ++ id)%string.

(** Modelled from the spec: [storage.new(obj)], missing with the storage
    engine's source: "inserts/overwrites the entry for this entity's
    composite key. No uniqueness error is raised on overwrite". The data
    model gives [id] as a string; the key of any other value is left
    unspecified there and is a TypeError here. *)
Definition new (obj : addr) : M unit :=
  o <- deref obj ;;
  id <- getattr obj "id" ;;
  match id with
  | VStr s =>
      fun w =>
        (with_objects
           (dict_set (composite_key (inst_class o) s) obj (storage_objects w)) w,
         Ok tt)
  | _ => raise TypeError
  end.

(** Modelled from the spec: the serialisation step of [storage.save()],
    missing with the storage engine's source: every registered entity is
    rendered "via its ToMapping contract", in registry order; the first
    exception ends the flush. *)
Fixpoint serialize_all (to_mapping : addr -> M (dict value))
    (objs : dict addr) : M (dict (dict value)) :=
  match objs with
  | [] => ret []
  | (key, obj) :: rest =>
      m <- to_mapping obj ;;
      ms <- serialize_all to_mapping rest ;;
      ret ((key, m) :: ms)
  end.

(** Modelled from the spec: [storage.save()], missing with the storage
    engine's source: "serializes every registered entity (via its
    ToMapping contract) into one mapping keyed by composite key, and
    writes it as the storage file's entire content". The file content is
    kept as the mapping itself. *)
Definition save (to_mapping : addr -> M (dict value)) : M unit :=
  fun w =>
    match serialize_all to_mapping (storage_objects w) w with
    | (w', Ok data) => (with_file (Some data) w', Ok tt)
    | (w', Raise e) => (w', Raise e)
    end.

End FileStorage.

(** ** [class BaseModel] *)

(** The pieces of the f-string of [__str__]: literal text, a value
    rendered by [str()], the attribute dictionary rendered by [str()]. *)
Inductive fpart : Type :=
  | FLit (s : string)
  | FStr (v : value)
  | FDict (d : dict value).

Module BaseModel.

Section Construction.
Context {L : IsoParser}.

(** One turn of the loop of [create]. *)
Definition create_step (self : addr) (dictionary : dict value)
    (item : string * value) : M unit :=
  let (key, value) := item in
  if String.eqb key "__class__" then ret tt
  else if String.eqb key "created_at" then
    match dict_get "created_at" dictionary with
    | None => raise KeyError
    | Some s => t <- lift (fromisoformat s) ;; setattr self key (VDatetime t)
    end
  else if String.eqb key "updated_at" then
    match dict_get "updated_at" dictionary with
    | None => raise KeyError
    | Some s => t <- lift (fromisoformat s) ;; setattr self key (VDatetime t)
    end
  else setattr self key value.

(** [def create(self, **dictionary)] *)
Definition create (self : addr) (dictionary : dict value) : M unit :=
  bind_keywords dictionary ;;
  for_each dictionary (create_step self dictionary).

(** [def __init__(self, *args, **kwargs)] *)
Definition __init__ (self : addr) (args : list value) (kwargs : dict value)
    : M unit :=
  bind_keywords kwargs ;;
  if negb (Nat.eqb (length kwargs) 0) then create self kwargs
  else
    u <- uuid4 ;;
    setattr self "id" (VStr (UUID.str u)) ;;
    t <- now ;;
    setattr self "created_at" (VDatetime t) ;;
    c <- getattr self "created_at" ;;
    setattr self "updated_at" c ;;
    FileStorage.new self.

(** Calling the class [cls] with positional and keyword arguments:
    [object.__new__] makes the instance, then [__init__] is called on it
    with the same arguments. *)
Definition instantiate (cls : string) (args : list value)
    (kwargs : dict value) : M addr :=
  self <- alloc cls ;;
  __init__ self args kwargs ;;
  ret self.

End Construction.

(** [def __str__(self)] *)
Definition __str__ (self : addr) : M (list fpart) :=
  o <- deref self ;;
  id <- getattr self "id" ;;
  o' <- deref self ;;
  ret [FLit "["; FLit (inst_class o); FLit "] ("; FStr id; FLit ") ";
       FDict (inst_dict o')].

(** [def to_dict(self)] *)
Definition to_dict (self : addr) : M (dict value) :=
  o <- deref self ;;
  let instance_to_dict := dict_copy (inst_dict o) in
  c <- getattr self "created_at" ;;
  created <- lift (isoformat c) ;;
  u <- getattr self "updated_at" ;;
  updated <- lift (isoformat u) ;;
  ret (dict_update instance_to_dict
         [("__class__", VStr (inst_class o));
          ("created_at", VStr created);
          ("updated_at", VStr updated)]).

(** [def save(self)] *)
Definition save (self : addr) : M unit :=
  t <- now ;;
  setattr self "updated_at" (VDatetime t) ;;
  FileStorage.save to_dict.

End BaseModel.

(** ** Vocabulary of the statements *)

(** [o.name], when the instance carries the attribute. *)
Definition attr (o : instance) (name : string) : option value :=
  dict_get name (inst_dict o).

Definition timestamp_key (k : string) : bool :=
  String.eqb k "created_at" || String.eqb k "updated_at".


Definition is_str (v : value) : bool :=
  match v with VStr _ => true | _ => false end.

(** The keywords that are not stored as an entry of the attribute
    dictionary: [self] is refused when the call is bound, [__dict__] and
    [__weakref__] go to the descriptors of the class. *)
Definition special_key (k : string) : bool :=
  String.eqb k "self" || String.eqb k "__dict__" || String.eqb k "__weakref__".

(** A mapping all of whose keys are ordinary attribute names. *)
Definition plain_keys {V} (d : dict V) : bool :=
  forallb (fun kv => negb (special_key (fst kv))) d.

(** What one item of the keyword mapping does to the attribute
    dictionary. *)
Inductive effect : Type :=
  | Skip
  | Assign (x : value)
  | Replace (d : dict value).

Definition apply_effect (key : string) (f : effect) (attrs : dict value)
    : dict value :=
  match f with
  | Skip => attrs
  | Assign x => dict_set key x attrs
  | Replace d => d
  end.

(** [setattr] read as an effect on the attribute dictionary. Lemma
    [setattr_run] shows that [setattr] computes it. *)
Definition setattr_effect (name : string) (v : value) : result effect :=
  if String.eqb name "__dict__" then
    match v with
    | VDict d => Ok (Replace d)
    | _ => Raise TypeError
    end
  else if String.eqb name "__weakref__" then Raise AttributeError
  else if String.eqb name "__class__" then Raise TypeError
  else Ok (Assign v).

Section CreateVocabulary.
Context {L : IsoParser}.

(** The exception that the item [(k, v)] of a keyword mapping raises in
    the loop of [create], if it raises one. *)
Definition item_error (k : string) (v : value) : option exn :=
  if String.eqb k "__class__" then None
  else if timestamp_key k then
    match fromisoformat v with
    | Ok _ => None
    | Raise e => Some e
    end
  else if String.eqb k "__dict__" then
    match v with
    | VDict _ => None
    | _ => Some TypeError
    end
  else if String.eqb k "__weakref__" then Some AttributeError
  else None.

(** The loop of [create] read as a function on the attribute dictionary:
    the effect of one item, and the dictionary and outcome after the
    items [items] of the keyword mapping [d]. Lemma [create_run] shows
    that the loop computes it. *)
Definition step_value (d : dict value) (key : string) (v : value)
    : result effect :=
  if String.eqb key "__class__" then Ok Skip
  else if timestamp_key key then
    match dict_get key d with
    | None => Raise KeyError
    | Some s =>
        match fromisoformat s with
        | Ok t => Ok (Assign (VDatetime t))
        | Raise e => Raise e
        end
    end
  else setattr_effect key v.

Fixpoint create_attrs (d items : dict value) (attrs : dict value)
    : dict value * result unit :=
  match items with
  | [] => (attrs, Ok tt)
  | (k, v) :: rest =>
      match step_value d k v with
      | Ok f => create_attrs d rest (apply_effect k f attrs)
      | Raise e => (attrs, Raise e)
      end
  end.

(** The call of [create] with the keyword mapping [d], on the attribute
    dictionary [attrs]: the binding of the keywords, then the loop. *)
Definition create_outcome (d : dict value) (attrs : dict value)
    : dict value * result unit :=
  match dict_get "self" d with
  | Some _ => (attrs, Raise TypeError)
  | None => create_attrs d d attrs
  end.

End CreateVocabulary.

(** [to_dict] read on the cell of [self]: the mapping it returns, or the
    exception it raises. Lemma [to_dict_run] shows that [to_dict]
    computes it and leaves the world as it was. *)
Definition mapping_of (o : instance) : result (dict value) :=
  match attr o "created_at" with
  | None => Raise AttributeError
  | Some c =>
      match isoformat c with
      | Raise e => Raise e
      | Ok created =>
          match attr o "updated_at" with
          | None => Raise AttributeError
          | Some u =>
              match isoformat u with
              | Raise e => Raise e
              | Ok updated =>
                  Ok (dict_update (dict_copy (inst_dict o))
                        [("__class__", VStr (inst_class o));
                         ("created_at", VStr created);
                         ("updated_at", VStr updated)])
              end
          end
      end
  end.

(** The cell of an instance after the assignment [self.name = v] of an
    ordinary attribute. *)
Definition assigned (o : instance) (name : string) (v : value) : instance :=
  mk_instance (inst_class o) (dict_set name v (inst_dict o)).

(** ** A concrete world for the examples *)

Module Demo.

Definition epoch : Datetime.datetime :=
  Datetime.mk_datetime 2024 1 14 17 7 0 0 None eq_refl.

(** A clock that advances by one second at each reading (up to 17:07:59). *)
Definition ticking (n : nat) : Datetime.datetime :=
  match Datetime.make 2024 1 14 17 7 (Z.of_nat n) 0 None with
  | Some t => t
  | None => Datetime.mk_datetime 2024 1 14 17 8 0 0 None eq_refl
  end.

Definition entropy (n : nat) : Z :=
  match n with
  | O => 0x0123456789abcdef0123456789abcdef
  | S m => Z.of_nat m
  end.

Definition world0 : world :=
  mk_world [] ticking 0 entropy 0 [] None.

(** The mapping of the repository's test [test_instance_recreate_from_dict]. *)
Definition user_1809 : dict value :=
  [("id", VStr "1809");
   ("created_at", VStr "2024-01-14T17:07:00");
   ("updated_at", VStr "2024-01-14T17:07:00");
   ("__class__", VStr "User");
   ("email", VStr "abdo@gmail.com");
   ("password", VStr "abdo@alx");
   ("first_name", VStr "Abdelrahman");
   ("last_name", VStr "Mohamed")].

(** The world after that mapping was reloaded as a [User]: one instance,
    at address 0, not registered. *)
Definition user_cell : instance :=
  mk_instance "User"
    [("id", VStr "1809");
     ("created_at", VDatetime epoch);
     ("updated_at", VDatetime epoch);
     ("email", VStr "abdo@gmail.com");
     ("password", VStr "abdo@alx");
     ("first_name", VStr "Abdelrahman");
     ("last_name", VStr "Mohamed")].

Definition world1 : world :=
  mk_world [user_cell] ticking 0 entropy 0 [] None.


(** What [to_dict] returns for it. *)
Definition user_mapping : dict value :=
  [("id", VStr "1809");
   ("created_at", VStr "2024-01-14T17:07:00");
   ("updated_at", VStr "2024-01-14T17:07:00");
   ("email", VStr "abdo@gmail.com");
   ("password", VStr "abdo@alx");
   ("first_name", VStr "Abdelrahman");
   ("last_name", VStr "Mohamed");
   ("__class__", VStr "User")].



End Demo.

(** * Facts about the standard-library model *)

Module DatetimeFacts.
Import Datetime.

(** A boolean property checked on [0 .. k-1] holds below [k]. *)
Lemma below_checked (P : Z -> bool) (k : nat) :
  forallb P (map Z.of_nat (seq 0 k)) = true ->
  forall n : Z, 0 <= n < Z.of_nat k -> P n = true.
Proof.
  intros Hall n Hn. rewrite forallb_forall in Hall. apply Hall.
  apply in_map_iff. exists (Z.to_nat n). split; [lia |].
  apply in_seq. lia.
Qed.

Lemma days_in_month_le (y m : Z) : days_in_month y m <= 31.
Proof.
  unfold days_in_month.
  repeat match goal with |- context [if ?b then _ else _] => destruct b end; lia.
Qed.

Lemma offset_ok_bounds (off : Z) :
  offset_ok (Some off) = true -> Z.abs off < 86400000000.
Proof.
  unfold offset_ok. rewrite orb_true_iff, andb_true_iff, Z.eqb_eq, Z.ltb_lt.
  lia.
Qed.

Lemma fields_ok_bounds (y mo d h mi s us : Z) (tz : option Z) :
  fields_ok y mo d h mi s us tz = true ->
  1 <= y <= 9999 /\ 1 <= mo <= 12 /\ 1 <= d <= 31 /\ 0 <= h <= 23 /\
  0 <= mi <= 59 /\ 0 <= s <= 59 /\ 0 <= us <= 999999 /\ offset_ok tz = true.
Proof.
  unfold fields_ok. rewrite !andb_true_iff, !Z.leb_le.
  pose proof (days_in_month_le y mo). intuition lia.
Qed.

Lemma make_fields (d : datetime) :
  make (year d) (month d) (day d) (hour d) (minute d) (second d)
       (microsecond d) (utcoffset d) = Some d.
Proof.
  destruct d as [y mo dd h mi s us tz ok]. unfold make. cbn.
  destruct (bool_true_dec (fields_ok y mo dd h mi s us tz)) as [H | H].
  - do 2 f_equal. apply (proof_irrel H ok).
  - congruence.
Qed.

Lemma compare_fields_refl (d : datetime) : compare_fields d d = Eq.
Proof. unfold compare_fields. rewrite !Z.compare_refl. reflexivity. Qed.

(** A timestamp compares equal to itself, naive or not. *)
Lemma compare_refl (d : datetime) : compare d d = Some Eq.
Proof.
  unfold compare. destruct (utcoffset d) as [off|].
  - rewrite Z.eqb_refl, compare_fields_refl. reflexivity.
  - rewrite compare_fields_refl. reflexivity.
Qed.


Lemma ltb_leb (a b : datetime) : ltb a b = true -> leb a b = true.
Proof. unfold ltb, leb. destruct (compare a b) as [[]|]; congruence. Qed.

End DatetimeFacts.

(** * The reader inverts [isoformat] *)

Module IsoReaderFacts.
Import Datetime IsoReader.

Lemma digit_val_digit (n : Z) : 0 <= n < 10 -> digit_val (digit n) = Some n.
Proof.
  intros H.
  pose proof (DatetimeFacts.below_checked
    (fun i => match digit_val (digit i) with Some j => j =? i | None => false end)
    10 eq_refl n H) as C.
  cbv beta in C. destruct (digit_val (digit n)) as [j|]; [| discriminate].
  apply Z.eqb_eq in C. congruence.
Qed.

Lemma read_zfill_gen (k j : nat) : forall (n acc : Z) (rest : string),
  0 <= n < 10 ^ Z.of_nat k ->
  read_digits (k + j) acc (zfill k n rest)
  = read_digits j (acc * 10 ^ Z.of_nat k + n) rest.
Proof.
  revert j. induction k as [|k IH]; intros j n acc rest Hn.
  - simpl in *. f_equal. lia.
  - rewrite Nat2Z.inj_succ, Z.pow_succ_r in Hn by lia.
    cbn [zfill]. replace (S k + j)%nat with (k + S j)%nat by lia.
    rewrite IH by (split; [apply Z.div_pos; lia | apply Z.div_lt_upper_bound; lia]).
    cbn [read_digits].
    rewrite digit_val_digit by (apply Z.mod_pos_bound; lia).
    f_equal. rewrite Nat2Z.inj_succ, Z.pow_succ_r by lia.
    pose proof (Z.div_mod n 10 ltac:(lia)). lia.
Qed.

Lemma read_zfill (k : nat) (n : Z) (rest : string) :
  0 <= n < 10 ^ Z.of_nat k ->
  read_digits k 0 (zfill k n rest) = Some (n, rest).
Proof.
  intros H. pose proof (read_zfill_gen k 0 n 0 rest H) as E.
  rewrite Nat.add_0_r in E. rewrite E. reflexivity.
Qed.

(** The fraction is read back, provided that what follows a fraction left
    out does not begin with a dot. *)
Lemma read_format_fraction (us : Z) (rest : string) :
  0 <= us <= 999999 -> expect "." rest = None ->
  read_fraction (format_fraction us rest) = Some (us, rest).
Proof.
  intros Hus Hrest. unfold read_fraction, format_fraction.
  destruct (us =? 0) eqn:E.
  - apply Z.eqb_eq in E. subst us. rewrite Hrest. reflexivity.
  - cbn [expect Ascii.eqb Bool.eqb].
    rewrite (read_zfill 6) by (cbn; lia). reflexivity.
Qed.

Lemma read_clock_full (h mi s us : Z) (rest : string) :
  0 <= h <= 99 -> 0 <= mi <= 99 -> 0 <= s <= 99 -> 0 <= us <= 999999 ->
  expect "." rest = None ->
  read_clock (zfill 2 h (String ":" (zfill 2 mi (String ":"
                (zfill 2 s (format_fraction us rest))))))
  = Some (h, mi, s, us, rest).
Proof.
  intros Hh Hmi Hs Hus Hrest. unfold read_clock.
  rewrite (read_zfill 2) by (cbn; lia). cbn [expect Ascii.eqb Bool.eqb].
  rewrite (read_zfill 2) by (cbn; lia). cbn [expect Ascii.eqb Bool.eqb].
  rewrite (read_zfill 2) by (cbn; lia).
  rewrite read_format_fraction by assumption. reflexivity.
Qed.

Lemma read_clock_short (h mi : Z) :
  0 <= h <= 99 -> 0 <= mi <= 99 ->
  read_clock (zfill 2 h (String ":" (zfill 2 mi EmptyString)))
  = Some (h, mi, 0, 0, EmptyString).
Proof.
  intros Hh Hmi. unfold read_clock.
  rewrite (read_zfill 2) by (cbn; lia). cbn [expect Ascii.eqb Bool.eqb].
  rewrite (read_zfill 2) by (cbn; lia). reflexivity.
Qed.

(** The offset printed for [a] microseconds is read back as [a]. *)
Lemma read_format_clock (a : Z) :
  0 <= a < 86400000000 ->
  exists h mi s us,
    read_clock (format_clock a) = Some (h, mi, s, us, EmptyString) /\
    ((h * 60 + mi) * 60 + s) * 1000000 + us = a.
Proof.
  intros Ha. unfold format_clock.
  set (hh := a / 3600000000). set (r := a mod 3600000000).
  set (mm := r / 60000000). set (r2 := r mod 60000000).
  set (ss := r2 / 1000000). set (f := r2 mod 1000000).
  pose proof (Z.div_mod a 3600000000 ltac:(lia)) as D1. fold hh r in D1.
  pose proof (Z.mod_pos_bound a 3600000000 ltac:(lia)) as B1. fold r in B1.
  pose proof (Z.div_mod r 60000000 ltac:(lia)) as D2. fold mm r2 in D2.
  pose proof (Z.mod_pos_bound r 60000000 ltac:(lia)) as B2. fold r2 in B2.
  pose proof (Z.div_mod r2 1000000 ltac:(lia)) as D3. fold ss f in D3.
  pose proof (Z.mod_pos_bound r2 1000000 ltac:(lia)) as B3. fold f in B3.
  assert (0 <= hh <= 99) as Hhh by lia.
  assert (0 <= mm <= 99) as Hmm by lia.
  assert (0 <= ss <= 99) as Hss by lia.
  destruct ((ss =? 0) && (f =? 0)) eqn:E.
  - apply andb_true_iff in E as [E1 E2]. apply Z.eqb_eq in E1, E2.
    exists hh, mm, 0, 0. split; [apply read_clock_short; assumption | lia].
  - exists hh, mm, ss, f. split; [| lia].
    apply read_clock_full; try assumption; [lia | reflexivity].
Qed.

Lemma read_format_offset (tz : option Z) :
  offset_ok tz = true -> read_offset (format_offset tz) = Some tz.
Proof.
  intros Hok. destruct tz as [off|]; [| reflexivity].
  pose proof (DatetimeFacts.offset_ok_bounds _ Hok) as B.
  destruct (read_format_clock (Z.abs off) ltac:(lia)) as (h & mi & s & us & Hr & Ht).
  unfold format_offset, read_offset.
  destruct (off <? 0) eqn:E; cbn [Ascii.eqb Bool.eqb orb]; rewrite Hr, Ht.
  - apply Z.ltb_lt in E. do 2 f_equal. lia.
  - apply Z.ltb_ge in E. do 2 f_equal. lia.
Qed.

Lemma format_offset_no_dot (tz : option Z) : expect "." (format_offset tz) = None.
Proof.
  destruct tz as [off|]; [| reflexivity].
  unfold format_offset. destruct (off <? 0); reflexivity.
Qed.

(** Reading what [isoformat] prints gives the timestamp back. *)
Lemma parse_isoformat (d : datetime) : parse (isoformat d) = Some d.
Proof.
  pose proof (DatetimeFacts.fields_ok_bounds _ _ _ _ _ _ _ _ (datetime_ok d)) as B.
  rewrite <- (DatetimeFacts.make_fields d).
  unfold parse, read_date, isoformat.
  rewrite (read_zfill 4) by (cbn; lia). cbn [expect Ascii.eqb Bool.eqb].
  rewrite (read_zfill 2) by (cbn; lia). cbn [expect Ascii.eqb Bool.eqb].
  rewrite (read_zfill 2) by (cbn; lia).
  rewrite read_clock_full by (try lia; apply format_offset_no_dot).
  rewrite read_format_offset by apply B. reflexivity.
Qed.

End IsoReaderFacts.

(** The reader as a parser of the library interface. *)
Definition iso_reader : IsoParser :=
  {| iso_parse := IsoReader.parse;
     iso_parse_isoformat := IsoReaderFacts.parse_isoformat |}.

Module UUIDFacts.
Import UUID.

Lemma nibble_range (n : Z) (j : nat) : 0 <= nibble n j < 16.
Proof.
  unfold nibble. change 15 with (Z.ones 4).
  rewrite Z.land_ones by lia. apply Z.mod_pos_bound. lia.
Qed.

Lemma is_hex_hexchar (x : Z) : 0 <= x < 16 -> is_hex (hexchar x) = true.
Proof.
  apply (DatetimeFacts.below_checked (fun i => is_hex (hexchar i)) 16).
  reflexivity.
Qed.

Lemma testbit_15 (n : Z) : 0 <= n -> Z.testbit 15 n = (n <? 4).
Proof.
  intros H. change 15 with (Z.ones 4).
  destruct (n <? 4) eqn:E.
  - apply Z.ltb_lt in E. apply Z.ones_spec_low. lia.
  - apply Z.ltb_ge in E. apply Z.ones_spec_high. lia.
Qed.

Lemma testbit_small (a i : Z) : 0 <= a < 16 -> 4 <= i -> Z.testbit a i = false.
Proof.
  intros Ha Hi. rewrite <- (Z.mod_small a (2 ^ 4)) by (cbn; lia).
  apply Z.mod_pow2_bits_high. lia.
Qed.

(** A nibble is determined by its four bits. *)
Lemma nibble_bits (n : Z) (j : nat) (b0 b1 b2 b3 : bool) :
  Z.testbit n (4 * Z.of_nat j) = b0 ->
  Z.testbit n (4 * Z.of_nat j + 1) = b1 ->
  Z.testbit n (4 * Z.of_nat j + 2) = b2 ->
  Z.testbit n (4 * Z.of_nat j + 3) = b3 ->
  nibble n j = Z.b2z b0 + 2 * Z.b2z b1 + 4 * Z.b2z b2 + 8 * Z.b2z b3.
Proof.
  intros H0 H1 H2 H3. unfold nibble. apply Z.bits_inj'. intros i Hi.
  rewrite Z.land_spec, Z.shiftr_spec, testbit_15 by lia.
  assert (i = 0 \/ i = 1 \/ i = 2 \/ i = 3 \/ 4 <= i) as [-> | [-> | [-> | [-> | Hge]]]] by lia.
  - rewrite Z.add_0_l, H0. destruct b0, b1, b2, b3; reflexivity.
  - rewrite (Z.add_comm 1), H1. destruct b0, b1, b2, b3; reflexivity.
  - rewrite (Z.add_comm 2), H2. destruct b0, b1, b2, b3; reflexivity.
  - rewrite (Z.add_comm 3), H3. destruct b0, b1, b2, b3; reflexivity.
  - replace (i <? 4) with false by (symmetry; apply Z.ltb_ge; lia).
    rewrite andb_false_r. symmetry.
    apply testbit_small; [destruct b0, b1, b2, b3; cbn; lia | lia].
Qed.

Lemma testbit_uuid4_int (r : Z) (n : Z) :
  0 <= n ->
  Z.testbit (uuid4_int r) n =
  (((Z.testbit r n && Z.testbit (Z.ones 128) n
       && negb (Z.testbit (Z.shiftl 0xc000 48) n))
      || Z.testbit (Z.shiftl 0x8000 48) n)
     && negb (Z.testbit (Z.shiftl 0xf000 64) n))
  || Z.testbit (Z.shiftl 4 76) n.
Proof.
  intros H. unfold uuid4_int.
  rewrite Z.lor_spec, Z.land_spec, Z.lnot_spec, Z.lor_spec, Z.land_spec,
    Z.lnot_spec, Z.land_spec by lia.
  reflexivity.
Qed.

(** The version nibble is 4. *)
Lemma version_nibble (r : Z) : nibble (uuid4_int r) 19 = 4.
Proof.
  rewrite (nibble_bits _ 19 false false true false);
    try (rewrite testbit_uuid4_int by (cbn; lia);
         cbn; rewrite ?andb_false_r, ?andb_true_r, ?orb_false_r, ?orb_true_r;
         reflexivity).
  reflexivity.
Qed.

(** The variant nibble is one of 8, 9, a, b. *)
Lemma variant_nibble (r : Z) : 8 <= nibble (uuid4_int r) 15 < 12.
Proof.
  rewrite (nibble_bits _ 15 (Z.testbit r 60) (Z.testbit r 61) false true);
    try (rewrite testbit_uuid4_int by (cbn; lia);
         cbn; rewrite ?andb_false_r, ?andb_true_r, ?orb_false_r, ?orb_true_r;
         reflexivity).
  destruct (Z.testbit r 60), (Z.testbit r 61); cbn; lia.
Qed.

Lemma is_variant_hexchar (x : Z) : 8 <= x < 12 -> is_variant (hexchar x) = true.
Proof.
  intros H.
  pose proof (DatetimeFacts.below_checked
    (fun i => is_variant (hexchar (8 + i))) 4 eq_refl (x - 8) ltac:(lia)) as C.
  cbv beta in C. replace (8 + (x - 8)) with x in C by lia. exact C.
Qed.

(** The identifier drawn by [uuid4] prints in the version-4 shape. *)
Lemma uuid4_str_shaped (r : Z) : uuid4_shaped (str (uuid4_int r)) = true.
Proof.
  unfold uuid4_shaped, str.
  set (i := uuid4_int r).
  cbv [hex substring String.append matches Ascii.eqb Bool.eqb].
  fold i.
  rewrite !is_hex_hexchar by apply nibble_range.
  unfold i. rewrite version_nibble.
  rewrite is_variant_hexchar by apply variant_nibble.
  reflexivity.
Qed.

End UUIDFacts.

(** * Dictionaries *)

Section DictFacts.
Context {V : Type}.
Implicit Types (d : dict V) (k : string) (v : V).

Lemma dict_get_set_eq k v d : dict_get k (dict_set k v d) = Some v.
Proof.
  induction d as [|[k' v'] d IH]; cbn.
  - rewrite String.eqb_refl. reflexivity.
  - destruct (String.eqb k' k) eqn:E; cbn.
    + rewrite String.eqb_refl. reflexivity.
    + rewrite E. exact IH.
Qed.

Lemma dict_get_set_ne k k' v d :
  k <> k' -> dict_get k' (dict_set k v d) = dict_get k' d.
Proof.
  intros Hne. induction d as [|[k0 v0] d IH]; cbn.
  - destruct (String.eqb k k') eqn:E; [apply String.eqb_eq in E; congruence | reflexivity].
  - destruct (String.eqb k0 k) eqn:E; cbn.
    + apply String.eqb_eq in E. subst k0.
      destruct (String.eqb k k') eqn:E'; [apply String.eqb_eq in E'; congruence | reflexivity].
    + destruct (String.eqb k0 k'); [reflexivity | exact IH].
Qed.

Lemma dict_get_set k k' v d :
  dict_get k' (dict_set k v d) = if String.eqb k k' then Some v else dict_get k' d.
Proof.
  destruct (String.eqb k k') eqn:E.
  - apply String.eqb_eq in E. subst. apply dict_get_set_eq.
  - apply String.eqb_neq in E. apply dict_get_set_ne. exact E.
Qed.

Lemma dict_get_None_keys k d : dict_get k d = None <-> ~ In k (dict_keys d).
Proof.
  induction d as [|[k' v'] d IH]; cbn.
  - tauto.
  - destruct (String.eqb k' k) eqn:E.
    + apply String.eqb_eq in E. split; [discriminate | tauto].
    + apply String.eqb_neq in E. rewrite IH. tauto.
Qed.

Lemma dict_get_In k v d : dict_get k d = Some v -> In (k, v) d.
Proof.
  induction d as [|[k' v'] d IH]; cbn; [discriminate |].
  destruct (String.eqb k' k) eqn:E.
  - apply String.eqb_eq in E. intros [= ->]. left. congruence.
  - intros H. right. exact (IH H).
Qed.

Lemma dict_keys_set k v d :
  dict_keys (dict_set k v d)
  = match dict_get k d with
    | Some _ => dict_keys d
    | None => (dict_keys d ++ [k])%list
    end.
Proof.
  induction d as [|[k' v'] d IH]; cbn; [reflexivity |].
  destruct (String.eqb k' k) eqn:E; cbn.
  - apply String.eqb_eq in E. subst. reflexivity.
  - unfold dict_keys in IH. rewrite IH. destruct (dict_get k d); reflexivity.
Qed.

(** Assignment keeps the keys pairwise different. *)
Lemma dict_set_wf k v d : dict_wf d -> dict_wf (dict_set k v d).
Proof.
  unfold dict_wf. rewrite dict_keys_set. intros H.
  destruct (dict_get k d) eqn:E; [exact H |].
  apply dict_get_None_keys in E.
  apply NoDup_app; repeat split; [exact H | | apply NoDup_singleton].
  intros x Hx Hx'. apply list_elem_of_In in Hx. apply list_elem_of_In in Hx'.
  destruct Hx' as [<- | []]. contradiction.
Qed.

Lemma dict_get_update_nil d k : dict_get k (dict_update d []) = dict_get k d.
Proof. reflexivity. Qed.

Lemma dict_update_cons d k v other :
  dict_update d ((k, v) :: other) = dict_update (dict_set k v d) other.
Proof. reflexivity. Qed.

Lemma dict_update_wf d other : dict_wf d -> dict_wf (dict_update d other).
Proof.
  revert d. induction other as [|[k v] other IH]; intros d H; [exact H |].
  rewrite dict_update_cons. apply IH, dict_set_wf, H.
Qed.
End DictFacts.

Lemma dict_get_of_In {V} (d : dict V) (k : string) (v : V) :
  In (k, v) d -> exists v', dict_get k d = Some v'.
Proof.
  intros H. destruct (dict_get k d) as [v'|] eqn:E; [eauto |].
  apply dict_get_None_keys in E. exfalso. apply E. unfold dict_keys.
  apply in_map_iff. exists (k, v). split; [reflexivity | exact H].
Qed.

Lemma dict_wf_In_unique {V} (d : dict V) (k : string) (v v' : V) :
  dict_wf d -> In (k, v) d -> In (k, v') d -> v = v'.
Proof.
  unfold dict_wf, dict_keys. induction d as [|[k0 v0] d IH]; intros Hwf H1 H2; [destruct H1 |].
  cbn in Hwf. apply NoDup_cons in Hwf as [Hnotin Hwf].
  assert (forall x, In (k0, x) d -> False) as Hno.
  { intros x Hx. apply Hnotin. apply list_elem_of_In. apply in_map_iff.
    exists (k0, x). split; [reflexivity | exact Hx]. }
  destruct H1 as [E1 | H1], H2 as [E2 | H2].
  - congruence.
  - injection E1 as -> ->. exfalso. eapply Hno, H2.
  - injection E2 as -> ->. exfalso. eapply Hno, H1.
  - apply IH; assumption.
Qed.

Lemma dict_get_wf_In {V} (d : dict V) (k : string) (v : V) :
  dict_wf d -> In (k, v) d -> dict_get k d = Some v.
Proof.
  intros Hwf Hin. destruct (dict_get_of_In _ _ _ Hin) as [v' Hv'].
  rewrite Hv'. f_equal.
  exact (dict_wf_In_unique _ _ _ _ Hwf (dict_get_In _ _ _ Hv') Hin).
Qed.

(** The entries of the mapping built by [to_dict]. *)
Lemma dict_get_update3 {V} (d : dict V) (k1 k2 k3 k : string) (v1 v2 v3 : V) :
  dict_get k (dict_update d [(k1, v1); (k2, v2); (k3, v3)])
  = if String.eqb k3 k then Some v3
    else if String.eqb k2 k then Some v2
    else if String.eqb k1 k then Some v1
    else dict_get k d.
Proof.
  unfold dict_update. cbn [fold_left fst snd]. rewrite !dict_get_set. reflexivity.
Qed.

(** * Ordinary keys *)

Lemma plain_keys_spec {V} (d : dict V) :
  plain_keys d = true <->
  (forall k, special_key k = true -> dict_get k d = None).
Proof.
  unfold plain_keys. induction d as [|[k0 v0] d IH]; cbn [forallb fst dict_get].
  - split; [reflexivity | reflexivity].
  - rewrite andb_true_iff, negb_true_iff, IH. split.
    + intros [H0 H] k Hk. destruct (String.eqb k0 k) eqn:E; [| apply H, Hk].
      apply String.eqb_eq in E. congruence.
    + intros H. split.
      * destruct (special_key k0) eqn:E; [| reflexivity].
        specialize (H k0 E). rewrite String.eqb_refl in H. discriminate.
      * intros k Hk. specialize (H k Hk).
        destruct (String.eqb k0 k); [discriminate | exact H].
Qed.

Lemma plain_keys_In {V} (d : dict V) (k : string) (v : V) :
  plain_keys d = true -> In (k, v) d -> special_key k = false.
Proof.
  intros Hp Hin. destruct (special_key k) eqn:E; [| reflexivity].
  destruct (dict_get_of_In _ _ _ Hin) as [v' Hv'].
  rewrite (proj1 (plain_keys_spec d) Hp k E) in Hv'. discriminate.
Qed.

Lemma plain_keys_self {V} (d : dict V) :
  plain_keys d = true -> dict_get "self" d = None.
Proof. intros Hp. apply (proj1 (plain_keys_spec d) Hp). reflexivity. Qed.

Lemma plain_keys_dict {V} (d : dict V) :
  plain_keys d = true -> dict_get "__dict__" d = None.
Proof. intros Hp. apply (proj1 (plain_keys_spec d) Hp). reflexivity. Qed.

Lemma special_key_false (k : string) :
  special_key k = false ->
  String.eqb k "self" = false /\ String.eqb k "__dict__" = false /\
  String.eqb k "__weakref__" = false.
Proof. unfold special_key. rewrite !orb_false_iff. tauto. Qed.

(** The mapping [to_dict] builds from ordinary attribute names has
    ordinary keys. *)
Lemma plain_keys_update3 (d : dict value) (v1 v2 v3 : value) :
  plain_keys d = true ->
  plain_keys (dict_update d [("__class__", v1); ("created_at", v2);
                             ("updated_at", v3)]) = true.
Proof.
  intros Hp. apply plain_keys_spec. intros k Hk. rewrite dict_get_update3.
  destruct (String.eqb "updated_at" k) eqn:E1;
    [apply String.eqb_eq in E1; subst k; discriminate Hk |].
  destruct (String.eqb "created_at" k) eqn:E2;
    [apply String.eqb_eq in E2; subst k; discriminate Hk |].
  destruct (String.eqb "__class__" k) eqn:E3;
    [apply String.eqb_eq in E3; subst k; discriminate Hk |].
  apply (proj1 (plain_keys_spec d) Hp k Hk).
Qed.

(** * Running the primitive operations *)

Lemma with_heap_id (w : world) : with_heap (heap w) w = w.
Proof. destruct w; reflexivity. Qed.

Lemma deref_live (w : world) (self : addr) (o : instance) :
  heap w !! self = Some o -> deref self w = (w, Ok o).
Proof. intros H. unfold deref. rewrite H. reflexivity. Qed.

Lemma getattr_live (w : world) (self : addr) (o : instance) (k : string) :
  heap w !! self = Some o ->
  getattr self k w
  = (w, match attr o k with Some v => Ok v | None => Raise AttributeError end).
Proof.
  intros H. unfold getattr, bind, attr. rewrite (deref_live _ _ _ H).
  destruct (dict_get k (inst_dict o)); reflexivity.
Qed.

(** [setattr] computes [setattr_effect] on the cell of [self]. *)
Lemma setattr_run (w : world) (self : addr) (o : instance) (k : string)
    (v : value) :
  heap w !! self = Some o ->
  setattr self k v w
  = match setattr_effect k v with
    | Ok f =>
        (with_heap (<[self := mk_instance (inst_class o)
                                (apply_effect k f (inst_dict o))]> (heap w)) w,
         Ok tt)
    | Raise e => (w, Raise e)
    end.
Proof.
  intros H. unfold setattr, setattr_effect, bind.
  rewrite (deref_live _ _ _ H).
  destruct (String.eqb k "__dict__"); [destruct v; reflexivity |].
  destruct (String.eqb k "__weakref__"); [reflexivity |].
  destruct (String.eqb k "__class__"); reflexivity.
Qed.

Lemma setattr_effect_plain (k : string) (v : value) :
  special_key k = false -> k <> "__class__" ->
  setattr_effect k v = Ok (Assign v).
Proof.
  intros Hk Hc. destruct (special_key_false _ Hk) as (_ & H1 & H2).
  apply String.eqb_neq in Hc. unfold setattr_effect. rewrite H1, H2, Hc.
  reflexivity.
Qed.

(** Assignment of an ordinary attribute. *)
Lemma setattr_live (w : world) (self : addr) (o : instance) (k : string)
    (v : value) :
  heap w !! self = Some o ->
  special_key k = false -> k <> "__class__" ->
  setattr self k v w
  = (with_heap (<[self := assigned o k v]> (heap w)) w, Ok tt).
Proof.
  intros H Hk Hc. rewrite (setattr_run _ _ _ _ _ H).
  rewrite (setattr_effect_plain _ _ Hk Hc). reflexivity.
Qed.

Lemma lookup_with_heap_insert (w : world) (self : addr) (o o' : instance) :
  heap w !! self = Some o ->
  heap (with_heap (<[self := o']> (heap w)) w) !! self = Some o'.
Proof.
  intros H. cbn. apply list_lookup_insert_eq. eapply lookup_lt_Some, H.
Qed.

Lemma with_heap_same (w : world) (self : addr) (o : instance) :
  heap w !! self = Some o ->
  with_heap (<[self := mk_instance (inst_class o) (inst_dict o)]> (heap w)) w = w.
Proof.
  intros H. destruct o as [c a]. cbn [inst_class inst_dict].
  rewrite (list_insert_id _ _ _ H). apply with_heap_id.
Qed.

(** * The loop of [create] *)

Section CreateLoop.
Context {L : IsoParser}.

Lemma create_step_run (self : addr) (d : dict value) (k : string) (v : value)
    (w : world) (o : instance) :
  heap w !! self = Some o ->
  BaseModel.create_step self d (k, v) w
  = match step_value d k v with
    | Ok f =>
        (with_heap (<[self := mk_instance (inst_class o)
                                (apply_effect k f (inst_dict o))]> (heap w)) w,
         Ok tt)
    | Raise e => (w, Raise e)
    end.
Proof.
  intros H. unfold BaseModel.create_step, step_value, timestamp_key.
  destruct (String.eqb k "__class__").
  { cbn [apply_effect]. rewrite (with_heap_same _ _ _ H). reflexivity. }
  destruct (String.eqb k "created_at") eqn:Ec.
  { apply String.eqb_eq in Ec. subst k. cbn [orb].
    destruct (dict_get "created_at" d) as [s|]; [| reflexivity].
    unfold bind, lift. destruct (fromisoformat s); [| reflexivity].
    rewrite (setattr_run _ _ _ _ _ H). reflexivity. }
  destruct (String.eqb k "updated_at") eqn:Eu.
  { apply String.eqb_eq in Eu. subst k. cbn [orb].
    destruct (dict_get "updated_at" d) as [s|]; [| reflexivity].
    unfold bind, lift. destruct (fromisoformat s); [| reflexivity].
    rewrite (setattr_run _ _ _ _ _ H). reflexivity. }
  cbn [orb]. apply (setattr_run _ _ _ _ _ H).
Qed.

(** The loop computes [create_attrs] on the cell of [self] and touches
    nothing else. *)
Lemma create_run (self : addr) (d : dict value) (items : dict value) :
  forall (w : world) (o : instance),
  heap w !! self = Some o ->
  for_each items (BaseModel.create_step self d) w
  = (with_heap
       (<[self := mk_instance (inst_class o)
                    (fst (create_attrs d items (inst_dict o)))]> (heap w)) w,
     snd (create_attrs d items (inst_dict o))).
Proof.
  induction items as [|[k v] items IH]; intros w o H.
  - cbn [for_each create_attrs fst snd]. rewrite (with_heap_same _ _ _ H).
    reflexivity.
  - cbn [for_each create_attrs]. unfold bind at 1.
    rewrite (create_step_run _ _ _ _ _ _ H).
    destruct (step_value d k v) as [f|e].
    + rewrite (IH _ (mk_instance (inst_class o) (apply_effect k f (inst_dict o))))
        by (eapply lookup_with_heap_insert, H).
      cbn. rewrite list_insert_insert_eq. reflexivity.
    + cbn [fst snd]. rewrite (with_heap_same _ _ _ H). reflexivity.
Qed.

(** A call of [create]: the binding of the keywords, then the loop. *)
Lemma create_call_run (self : addr) (d : dict value) (w : world)
    (o : instance) :
  heap w !! self = Some o ->
  BaseModel.create self d w
  = (with_heap
       (<[self := mk_instance (inst_class o)
                    (fst (create_outcome d (inst_dict o)))]> (heap w)) w,
     snd (create_outcome d (inst_dict o))).
Proof.
  intros H. unfold BaseModel.create, create_outcome, bind_keywords, bind.
  destruct (dict_get "self" d).
  - cbn [raise fst snd]. rewrite (with_heap_same _ _ _ H). reflexivity.
  - cbn [ret]. apply create_run, H.
Qed.

Lemma create_outcome_plain (d a : dict value) :
  plain_keys d = true -> create_outcome d a = create_attrs d d a.
Proof.
  intros Hp. unfold create_outcome. rewrite (plain_keys_self _ Hp). reflexivity.
Qed.

End CreateLoop.

(** * What the loop of [create] leaves in the attribute dictionary *)

Section CreateAttrs.
Context {L : IsoParser}.
Variable d : dict value.

Lemma step_value_class (v : value) : step_value d "__class__" v = Ok Skip.
Proof. reflexivity. Qed.

Lemma step_value_timestamp (k : string) (v v' : value) :
  timestamp_key k = true -> step_value d k v = step_value d k v'.
Proof.
  intros H. unfold step_value. rewrite H.
  destruct (String.eqb k "__class__"); reflexivity.
Qed.

Lemma step_value_plain (k : string) (v : value) :
  timestamp_key k = false -> special_key k = false -> k <> "__class__" ->
  step_value d k v = Ok (Assign v).
Proof.
  intros H Hs Hc. unfold step_value. rewrite H.
  rewrite (setattr_effect_plain _ _ Hs Hc).
  apply String.eqb_neq in Hc. rewrite Hc. reflexivity.
Qed.

Lemma step_value_Assign_key (k : string) (v x : value) :
  step_value d k v = Ok (Assign x) -> k <> "__class__".
Proof. intros H ->. discriminate H. Qed.

(** Only the key [__dict__] replaces the attribute dictionary. *)
Lemma step_value_Replace_key (k : string) (v : value) (a : dict value) :
  step_value d k v = Ok (Replace a) -> k = "__dict__".
Proof.
  unfold step_value, setattr_effect.
  destruct (String.eqb k "__class__"); [discriminate |].
  destruct (timestamp_key k).
  { destruct (dict_get k d) as [s|]; [| discriminate].
    destruct (fromisoformat s); discriminate. }
  destruct (String.eqb k "__dict__") eqn:E; [intros _; apply String.eqb_eq, E |].
  destruct (String.eqb k "__weakref__"); [discriminate |].
  destruct (String.eqb k "__class__"); discriminate.
Qed.

(** Keys that are not in the items are left as they were, when no item
    replaces the dictionary. *)
Lemma create_attrs_absent (items : dict value) : forall (a : dict value) (k : string),
  dict_get "__dict__" items = None ->
  dict_get k items = None ->
  dict_get k (fst (create_attrs d items a)) = dict_get k a.
Proof.
  induction items as [|[k0 v0] items IH]; intros a k Hd H; [reflexivity |].
  cbn in H, Hd. destruct (String.eqb k0 k) eqn:E; [discriminate |].
  destruct (String.eqb k0 "__dict__") eqn:E0; [discriminate |].
  apply String.eqb_neq in E, E0. cbn [create_attrs].
  destruct (step_value d k0 v0) as [[|x|r]|e] eqn:Es; cbn [fst apply_effect].
  - apply IH; assumption.
  - rewrite (IH _ _ Hd H). apply dict_get_set_ne, E.
  - contradiction E0. eapply step_value_Replace_key, Es.
  - reflexivity.
Qed.

(** The discriminator key is never copied onto the instance. *)
Lemma create_attrs_class (items : dict value) : forall (a : dict value),
  dict_get "__dict__" items = None ->
  dict_get "__class__" (fst (create_attrs d items a)) = dict_get "__class__" a.
Proof.
  induction items as [|[k0 v0] items IH]; intros a Hd; [reflexivity |].
  cbn in Hd. destruct (String.eqb k0 "__dict__") eqn:E0; [discriminate |].
  apply String.eqb_neq in E0. cbn [create_attrs].
  destruct (step_value d k0 v0) as [[|x|r]|e] eqn:E; cbn [fst apply_effect].
  - apply IH, Hd.
  - rewrite (IH _ Hd). apply dict_get_set_ne. eapply step_value_Assign_key, E.
  - contradiction E0. eapply step_value_Replace_key, E.
  - reflexivity.
Qed.

(** An exception of the loop is the exception of one of its items. *)
Lemma create_attrs_raise (items : dict value) : forall (a : dict value) (e : exn),
  snd (create_attrs d items a) = Raise e ->
  exists k v, In (k, v) items /\ step_value d k v = Raise e.
Proof.
  induction items as [|[k0 v0] items IH]; intros a e H; [discriminate |].
  cbn [create_attrs] in H.
  destruct (step_value d k0 v0) as [f|e0] eqn:E.
  - destruct (IH _ _ H) as (k & v & Hin & Hs). exists k, v. split; [right |]; assumption.
  - cbn in H. injection H as ->. exists k0, v0. split; [left; reflexivity | exact E].
Qed.

(** The loop ends normally exactly when no item raises. *)
Lemma create_attrs_ok (items : dict value) : forall (a : dict value),
  snd (create_attrs d items a) = Ok tt <->
  (forall k v, In (k, v) items -> exists r, step_value d k v = Ok r).
Proof.
  induction items as [|[k0 v0] items IH]; intros a.
  - cbn. split; [intros _ k v [] | reflexivity].
  - cbn [create_attrs].
    destruct (step_value d k0 v0) as [f|e0] eqn:E.
    + rewrite IH. split.
      * intros H k v [[= <- <-] | Hin]; [eauto | apply H, Hin].
      * intros H k v Hin. apply H. right. exact Hin.
    + cbn. split; [discriminate |].
      intros H. destruct (H k0 v0 (or_introl eq_refl)) as [r Hr]. congruence.
Qed.

(** The loop raises at the first item that raises. *)
Lemma create_attrs_first_raise (pre post : dict value) (k : string)
    (v : value) (e : exn) :
  (forall k' v', In (k', v') pre -> exists r, step_value d k' v' = Ok r) ->
  step_value d k v = Raise e ->
  forall a, snd (create_attrs d (pre ++ (k, v) :: post)%list a) = Raise e.
Proof.
  intros Hpre Hs. induction pre as [|[k0 v0] pre IH]; intros a.
  - cbn [app create_attrs]. rewrite Hs. reflexivity.
  - cbn [app create_attrs].
    destruct (Hpre k0 v0 (or_introl eq_refl)) as [r ->].
    apply IH. intros k' v' Hin. apply Hpre. right. exact Hin.
Qed.

(** After a normal end, a key of the items holds what its item
    contributes, provided all items of that key contribute the same and
    no item replaces the dictionary. *)
Lemma create_attrs_get (items : dict value) : forall (a : dict value) (k : string) (v : value),
  dict_get "__dict__" items = None ->
  snd (create_attrs d items a) = Ok tt ->
  In (k, v) items ->
  (forall v', In (k, v') items -> step_value d k v' = step_value d k v) ->
  dict_get k (fst (create_attrs d items a))
  = match step_value d k v with
    | Ok (Assign x) => Some x
    | _ => dict_get k a
    end.
Proof.
  induction items as [|[k0 v0] items IH]; intros a k v Hd Hok Hin Hsame; [destruct Hin |].
  cbn [create_attrs] in *.
  cbn [dict_get] in Hd.
  destruct (String.eqb k0 "__dict__") eqn:E0; [discriminate |].
  apply String.eqb_neq in E0.
  destruct (step_value d k0 v0) as [f|e0] eqn:E; [| discriminate].
  assert (forall r, f <> Replace r) as Hf
    by (intros r ->; apply E0; eapply step_value_Replace_key, E).
  destruct (dict_get k items) as [v'|] eqn:Hrest.
  - (* the key occurs again later *)
    apply dict_get_In in Hrest.
    assert (step_value d k v' = step_value d k v) as Ev'
      by (apply Hsame; right; exact Hrest).
    assert (forall v'', In (k, v'') items -> step_value d k v'' = step_value d k v')
      as Hsame' by (intros v'' H''; rewrite Ev'; apply Hsame; right; exact H'').
    rewrite (IH _ k v' Hd Hok Hrest Hsame'), Ev'.
    destruct f as [|x|r]; cbn [apply_effect]; [reflexivity | | contradiction (Hf r); reflexivity].
    destruct (step_value d k v) as [[|y|r]|e1] eqn:Ek; try reflexivity.
    + apply dict_get_set_ne. intros ->.
      rewrite (Hsame v0 (or_introl eq_refl)) in E. congruence.
    + apply dict_get_set_ne. intros ->.
      rewrite (Hsame v0 (or_introl eq_refl)) in E. congruence.
    + apply dict_get_set_ne. intros ->.
      rewrite (Hsame v0 (or_introl eq_refl)) in E. congruence.
  - (* the key occurs only at the head *)
    destruct Hin as [[= -> ->] | Hin].
    2:{ apply dict_get_None_keys in Hrest. exfalso. apply Hrest.
        unfold dict_keys. apply in_map_iff. exists (k, v). split; [reflexivity | exact Hin]. }
    rewrite E. rewrite create_attrs_absent by assumption.
    destruct f as [|x|r]; cbn [apply_effect];
      [reflexivity | apply dict_get_set_eq | contradiction (Hf r); reflexivity].
Qed.

(** The loop of [create] keeps the keys of [__dict__] pairwise different,
    when no item replaces the dictionary. *)
Lemma create_attrs_wf (items : dict value) : forall a : dict value,
  dict_get "__dict__" items = None ->
  dict_wf a -> dict_wf (fst (create_attrs d items a)).
Proof.
  induction items as [|[k v] items IH]; intros a Hd Hwf; [exact Hwf |].
  cbn [dict_get] in Hd.
  destruct (String.eqb k "__dict__") eqn:E0; [discriminate |].
  apply String.eqb_neq in E0.
  cbn [create_attrs]. destruct (step_value d k v) as [[|x|r]|e] eqn:E; cbn [fst apply_effect].
  - apply IH; assumption.
  - apply IH; [exact Hd | apply dict_set_wf, Hwf].
  - contradiction E0. eapply step_value_Replace_key, E.
  - exact Hwf.
Qed.

End CreateAttrs.

Lemma assigned_wf (o : instance) (k : string) (v : value) :
  dict_wf (inst_dict o) -> dict_wf (inst_dict (assigned o k v)).
Proof. apply dict_set_wf. Qed.

(** * Construction *)

Ltac world_simpl :=
  unfold with_heap, with_objects, with_file;
  cbn [heap clock clock_reads urandom urandom_reads storage_objects
       storage_file].

Lemma lookup_alloc (h : list instance) (o : instance) :
  (h ++ [o])%list !! length h = Some o.
Proof. apply list_lookup_middle. reflexivity. Qed.

Lemma insert_alloc (h : list instance) (o o' : instance) :
  <[length h := o']> (h ++ [o])%list = (h ++ [o'])%list.
Proof.
  rewrite insert_app_r_alt by lia. rewrite Nat.sub_diag. reflexivity.
Qed.

Lemma heap_after_instantiate (cls : string) (a : dict value) (w : world) :
  heap (with_heap (heap w ++ [mk_instance cls a])%list w) !! length (heap w)
  = Some (mk_instance cls a).
Proof. apply lookup_alloc. Qed.

Section Construction.
Context {L : IsoParser}.

(** Construction from a non-empty keyword mapping: one new cell, filled by
    the call of [create]; nothing else in the world changes. *)
Lemma instantiate_kwargs (cls : string) (args : list value) (kw : dict value)
    (w : world) :
  kw <> [] ->
  BaseModel.instantiate cls args kw w
  = (with_heap (heap w ++ [mk_instance cls (fst (create_outcome kw []))])%list w,
     match snd (create_outcome kw []) with
     | Ok _ => Ok (length (heap w))
     | Raise e => Raise e
     end).
Proof.
  intros Hne. unfold BaseModel.instantiate, BaseModel.__init__.
  unfold bind at 1. unfold alloc.
  unfold bind at 1. unfold bind at 1.
  unfold bind_keywords at 1, create_outcome.
  destruct (dict_get "self" kw) eqn:Hself; [reflexivity |].
  cbn [ret]. destruct kw as [|kv kw']; [congruence |]. cbn [length Nat.eqb negb].
  rewrite (create_call_run _ _ _ (mk_instance cls []))
    by (cbn [heap with_heap]; apply lookup_alloc).
  cbn [heap with_heap inst_class inst_dict]. rewrite insert_alloc.
  unfold create_outcome. rewrite Hself.
  destruct (snd (create_attrs (kv :: kw') (kv :: kw') [])) as [[]|e]; reflexivity.
Qed.

(** Fresh construction. *)
Lemma instantiate_fresh (cls : string) (args : list value) (w : world) :
  let id := UUID.str (UUID.uuid4_int (urandom w (urandom_reads w))) in
  let t := clock w (clock_reads w) in
  BaseModel.instantiate cls args [] w
  = (mk_world
       (heap w ++ [mk_instance cls [("id", VStr id);
                                    ("created_at", VDatetime t);
                                    ("updated_at", VDatetime t)]])%list
       (clock w) (S (clock_reads w)) (urandom w) (S (urandom_reads w))
       (dict_set (FileStorage.composite_key cls id) (length (heap w))
                 (storage_objects w))
       (storage_file w),
     Ok (length (heap w))).
Proof.
  intros id t. subst id t. destruct w as [h c cr u ur so sf].
  unfold BaseModel.instantiate, BaseModel.__init__.
  cbn [length Nat.eqb negb bind_keywords dict_get].
  unfold bind at 1. unfold alloc. world_simpl.
  unfold bind at 1. unfold bind at 1. unfold ret at 1.
  unfold bind at 1. unfold uuid4. world_simpl.
  unfold bind at 1.
  rewrite (setattr_live _ _ (mk_instance cls []))
    by (first [apply lookup_alloc | reflexivity | discriminate]).
  world_simpl. rewrite insert_alloc. unfold assigned. cbn [inst_class inst_dict dict_set].
  unfold bind at 1. unfold now. world_simpl.
  unfold bind at 1.
  erewrite setattr_live
    by (first [apply lookup_alloc | reflexivity | discriminate]).
  world_simpl. rewrite insert_alloc. unfold assigned.
  cbn [inst_class inst_dict dict_set String.eqb Ascii.eqb Bool.eqb].
  unfold bind at 1.
  erewrite getattr_live by apply lookup_alloc.
  unfold attr. cbn [inst_dict dict_get String.eqb Ascii.eqb Bool.eqb].
  unfold bind at 1.
  erewrite setattr_live
    by (first [apply lookup_alloc | reflexivity | discriminate]).
  world_simpl. rewrite insert_alloc. unfold assigned.
  cbn [inst_class inst_dict dict_set String.eqb Ascii.eqb Bool.eqb].
  unfold FileStorage.new. unfold bind at 1.
  erewrite deref_live by apply lookup_alloc.
  unfold bind at 1.
  erewrite getattr_live by apply lookup_alloc.
  unfold attr. cbn [inst_class inst_dict dict_get String.eqb Ascii.eqb Bool.eqb].
  reflexivity.
Qed.

End Construction.

(** * [to_dict], [__str__], [save] *)

Lemma to_dict_run (w : world) (self : addr) (o : instance) :
  heap w !! self = Some o ->
  BaseModel.to_dict self w = (w, mapping_of o).
Proof.
  intros H. unfold BaseModel.to_dict, mapping_of.
  unfold bind at 1. rewrite (deref_live _ _ _ H).
  unfold bind at 1. rewrite (getattr_live _ _ _ _ H).
  destruct (attr o "created_at") as [c|]; [| reflexivity].
  unfold bind at 1, lift at 1. destruct (isoformat c) as [cs|e]; [| reflexivity].
  unfold bind at 1. rewrite (getattr_live _ _ _ _ H).
  destruct (attr o "updated_at") as [u|]; [| reflexivity].
  unfold bind at 1, lift at 1. destruct (isoformat u) as [us|e]; reflexivity.
Qed.

Lemma to_dict_dangling (w : world) (self : addr) :
  heap w !! self = None ->
  BaseModel.to_dict self w = (w, Raise SystemError).
Proof.
  intros H. unfold BaseModel.to_dict, bind, deref. rewrite H. reflexivity.
Qed.

(** [to_dict] only reads. *)
Lemma to_dict_frame (w : world) (self : addr) :
  fst (BaseModel.to_dict self w) = w.
Proof.
  destruct (heap w !! self) as [o|] eqn:H.
  - rewrite (to_dict_run _ _ _ H). reflexivity.
  - rewrite (to_dict_dangling _ _ H). reflexivity.
Qed.

Lemma isoformat_Ok (v : value) (s : string) :
  isoformat v = Ok s -> exists t, v = VDatetime t /\ s = Datetime.isoformat t.
Proof. destruct v; cbn; intros [= <-]. eauto. Qed.

Lemma isoformat_Raise (v : value) (e : exn) :
  isoformat v = Raise e -> e = AttributeError.
Proof. destruct v; cbn; congruence. Qed.

Lemma mapping_of_Ok (o : instance) (m : dict value) :
  mapping_of o = Ok m ->
  exists c u,
    attr o "created_at" = Some (VDatetime c) /\
    attr o "updated_at" = Some (VDatetime u) /\
    m = dict_update (inst_dict o)
          [("__class__", VStr (inst_class o));
           ("created_at", VStr (Datetime.isoformat c));
           ("updated_at", VStr (Datetime.isoformat u))].
Proof.
  unfold mapping_of.
  destruct (attr o "created_at") as [c|]; [| discriminate].
  destruct (isoformat c) as [cs|] eqn:Ec; [| discriminate].
  destruct (attr o "updated_at") as [u|]; [| discriminate].
  destruct (isoformat u) as [us|] eqn:Eu; [| discriminate].
  apply isoformat_Ok in Ec as (tc & -> & ->).
  apply isoformat_Ok in Eu as (tu & -> & ->).
  intros [= <-]. exists tc, tu. repeat split.
Qed.





Lemma str_run (w : world) (self : addr) (o : instance) :
  heap w !! self = Some o ->
  BaseModel.__str__ self w
  = (w, match attr o "id" with
        | Some id => Ok [FLit "["; FLit (inst_class o); FLit "] ("; FStr id;
                         FLit ") "; FDict (inst_dict o)]
        | None => Raise AttributeError
        end).
Proof.
  intros H. unfold BaseModel.__str__.
  unfold bind at 1. rewrite (deref_live _ _ _ H).
  unfold bind at 1. rewrite (getattr_live _ _ _ _ H).
  destruct (attr o "id"); [| reflexivity].
  unfold bind at 1. rewrite (deref_live _ _ _ H). reflexivity.
Qed.



(** * Outcome of the construction from a keyword mapping *)

Lemma timestamp_key_cases (k : string) :
  timestamp_key k = true -> k = "created_at" \/ k = "updated_at".
Proof.
  unfold timestamp_key. rewrite orb_true_iff, !String.eqb_eq. tauto.
Qed.

Lemma timestamp_key_false (k : string) :
  k <> "created_at" -> k <> "updated_at" -> timestamp_key k = false.
Proof.
  intros H1 H2. unfold timestamp_key.
  apply String.eqb_neq in H1, H2. rewrite H1, H2. reflexivity.
Qed.

Lemma timestamp_key_plain (k : string) :
  timestamp_key k = true -> special_key k = false /\ k <> "__class__".
Proof.
  intros H. destruct (timestamp_key_cases _ H) as [-> | ->];
    (split; [reflexivity | discriminate]).
Qed.

Section Outcome.
Context {L : IsoParser}.

Lemma fromisoformat_not_str (v : value) :
  is_str v = false -> fromisoformat v = Raise TypeError.
Proof. destruct v; cbn; congruence. Qed.

Lemma fromisoformat_str (s : string) :
  fromisoformat (VStr s)
  = match iso_parse s with Some t => Ok t | None => Raise ValueError end.
Proof. reflexivity. Qed.

(** [fromisoformat] reads back what [isoformat] printed. *)
Lemma fromisoformat_isoformat (t : Datetime.datetime) :
  fromisoformat (VStr (Datetime.isoformat t)) = Ok t.
Proof. rewrite fromisoformat_str, iso_parse_isoformat. reflexivity. Qed.

Lemma fromisoformat_error (v : value) (e : exn) :
  fromisoformat v = Raise e ->
  (is_str v = false /\ e = TypeError) \/
  (exists s, v = VStr s /\ iso_parse s = None /\ e = ValueError).
Proof.
  destruct v; cbn; try (intros [= <-]; left; split; reflexivity).
  destruct (iso_parse s) eqn:E; [discriminate |].
  intros [= <-]. right. eauto.
Qed.

Lemma step_value_timestamp_eq (d : dict value) (k : string) (v x : value) :
  timestamp_key k = true -> dict_get k d = Some x ->
  step_value d k v
  = match fromisoformat x with
    | Ok t => Ok (Assign (VDatetime t))
    | Raise e => Raise e
    end.
Proof.
  intros Hk Hx. unfold step_value. rewrite Hk, Hx.
  destruct (timestamp_key_cases _ Hk) as [-> | ->]; reflexivity.
Qed.

(** The exception an item raises in the loop is its [item_error], in a
    mapping with pairwise different keys. *)
Lemma step_value_item_error (d : dict value) (k : string) (v : value) :
  dict_get k d = Some v ->
  match step_value d k v with
  | Ok _ => item_error k v = None
  | Raise e => item_error k v = Some e
  end.
Proof.
  intros Hv. unfold step_value, item_error, setattr_effect. rewrite Hv.
  destruct (String.eqb k "__class__") eqn:Ec; [reflexivity |].
  destruct (timestamp_key k); [destruct (fromisoformat v); reflexivity |].
  destruct (String.eqb k "__dict__"); [destruct v; reflexivity |].
  destruct (String.eqb k "__weakref__"); reflexivity.
Qed.

(** Among ordinary keys only a timestamp field raises, and the exception
    is the one [fromisoformat] raises on its value. *)
Lemma step_value_raise (d : dict value) (k : string) (v : value) (e : exn) :
  In (k, v) d -> special_key k = false -> step_value d k v = Raise e ->
  exists x, timestamp_key k = true /\ dict_get k d = Some x /\
            fromisoformat x = Raise e.
Proof.
  intros Hin Hs. destruct (dict_get_of_In _ _ _ Hin) as [x Hx].
  unfold step_value. destruct (String.eqb k "__class__") eqn:Ec; [discriminate |].
  destruct (timestamp_key k).
  - rewrite Hx. destruct (fromisoformat x) eqn:E; [discriminate |].
    intros [= <-]. eauto.
  - apply String.eqb_neq in Ec. rewrite (setattr_effect_plain _ _ Hs Ec).
    discriminate.
Qed.

(** From a mapping with ordinary keys, only a timestamp field can make
    the construction fail. *)
Lemma instantiate_raise (cls : string) (args : list value) (kw : dict value)
    (w w' : world) (e : exn) :
  kw <> [] -> plain_keys kw = true ->
  BaseModel.instantiate cls args kw w = (w', Raise e) ->
  exists k x, timestamp_key k = true /\ dict_get k kw = Some x /\
              fromisoformat x = Raise e.
Proof.
  intros Hne Hp. rewrite (instantiate_kwargs _ _ _ _ Hne).
  rewrite (create_outcome_plain _ _ Hp).
  destruct (snd (create_attrs kw kw [])) as [[]|e'] eqn:E; [discriminate |].
  intros [= _ <-].
  destruct (create_attrs_raise _ _ _ _ E) as (k & v & Hin & Hs).
  destruct (step_value_raise _ _ _ _ Hin (plain_keys_In _ _ _ Hp Hin) Hs)
    as (x & H1 & H2 & H3).
  eauto.
Qed.

(** A timestamp field that [fromisoformat] rejects makes the construction
    fail, whatever else the mapping holds. *)
Lemma instantiate_rejects (cls : string) (args : list value) (kw : dict value)
    (w : world) (k : string) (x : value) (e0 : exn) :
  timestamp_key k = true -> dict_get k kw = Some x ->
  fromisoformat x = Raise e0 ->
  exists w' e, BaseModel.instantiate cls args kw w = (w', Raise e).
Proof.
  intros Hk Hx Hf.
  assert (kw <> []) as Hne by (intros ->; discriminate).
  rewrite (instantiate_kwargs _ _ _ _ Hne). unfold create_outcome.
  destruct (dict_get "self" kw); [cbn [snd]; eauto |].
  destruct (snd (create_attrs kw kw [])) as [[]|e'] eqn:E; [| eauto].
  exfalso. pose proof (proj1 (create_attrs_ok _ _ _) E) as E'.
  destruct (E' k x (dict_get_In _ _ _ Hx)) as [r Hr].
  rewrite (step_value_timestamp_eq _ _ _ _ Hk Hx), Hf in Hr. discriminate.
Qed.

(** The items of a mapping with ordinary keys whose timestamp fields parse
    all end normally. *)
Lemma plain_items_ok (kw : dict value) :
  plain_keys kw = true ->
  (forall k v, timestamp_key k = true -> dict_get k kw = Some v ->
               exists t, fromisoformat v = Ok t) ->
  forall k v, In (k, v) kw -> exists r, step_value kw k v = Ok r.
Proof.
  intros Hp Hts k v Hin.
  destruct (dict_get_of_In _ _ _ Hin) as [x Hx].
  unfold step_value. destruct (String.eqb k "__class__") eqn:Ec; [eauto |].
  destruct (timestamp_key k) eqn:Hk.
  - rewrite Hx. destruct (Hts _ _ Hk Hx) as [t ->]. eauto.
  - apply String.eqb_neq in Ec.
    rewrite (setattr_effect_plain _ _ (plain_keys_In _ _ _ Hp Hin) Ec). eauto.
Qed.

(** When the keys are ordinary and every supplied timestamp field parses,
    the construction succeeds. *)
Lemma instantiate_ok (cls : string) (args : list value) (kw : dict value)
    (w : world) :
  kw <> [] -> plain_keys kw = true ->
  (forall k v, timestamp_key k = true -> dict_get k kw = Some v ->
               exists t, fromisoformat v = Ok t) ->
  BaseModel.instantiate cls args kw w
  = (with_heap (heap w ++ [mk_instance cls (fst (create_attrs kw kw []))])%list w,
     Ok (length (heap w)))
  /\ snd (create_attrs kw kw []) = Ok tt.
Proof.
  intros Hne Hp Hts. rewrite (instantiate_kwargs _ _ _ _ Hne).
  rewrite (create_outcome_plain _ _ Hp).
  assert (snd (create_attrs kw kw []) = Ok tt) as E
    by (apply create_attrs_ok, plain_items_ok; assumption).
  rewrite E. split; reflexivity.
Qed.

(** The attributes after a successful construction. *)
Lemma created_timestamp (kw a : dict value) (k : string) (v : value)
    (t : Datetime.datetime) :
  plain_keys kw = true ->
  snd (create_attrs kw kw a) = Ok tt ->
  timestamp_key k = true -> dict_get k kw = Some v -> fromisoformat v = Ok t ->
  dict_get k (fst (create_attrs kw kw a)) = Some (VDatetime t).
Proof.
  intros Hp Hok Hk Hv Hf.
  rewrite (create_attrs_get kw kw a k v (plain_keys_dict _ Hp) Hok
             (dict_get_In _ _ _ Hv)).
  - rewrite (step_value_timestamp_eq _ _ _ _ Hk Hv), Hf. reflexivity.
  - intros v' _. apply step_value_timestamp, Hk.
Qed.

Lemma created_plain (kw a : dict value) (k : string) (v : value) :
  plain_keys kw = true ->
  snd (create_attrs kw kw a) = Ok tt -> dict_wf kw ->
  timestamp_key k = false -> k <> "__class__" -> dict_get k kw = Some v ->
  dict_get k (fst (create_attrs kw kw a)) = Some v.
Proof.
  intros Hp Hok Hwf Hk Hc Hv.
  pose proof (plain_keys_In _ _ _ Hp (dict_get_In _ _ _ Hv)) as Hs.
  rewrite (create_attrs_get kw kw a k v (plain_keys_dict _ Hp) Hok
             (dict_get_In _ _ _ Hv)).
  - rewrite (step_value_plain _ _ _ Hk Hs Hc). reflexivity.
  - intros v' Hin. f_equal.
    exact (dict_wf_In_unique _ _ _ _ Hwf Hin (dict_get_In _ _ _ Hv)).
Qed.

Lemma created_absent (kw a : dict value) (k : string) :
  plain_keys kw = true ->
  dict_get k kw = None -> dict_get k (fst (create_attrs kw kw a)) = dict_get k a.
Proof.
  intros Hp H. apply create_attrs_absent; [apply plain_keys_dict, Hp | exact H].
Qed.

(** The construction raises at the first item of the mapping that
    offends: a keyword [self] apart, the items before it are harmless
    and its own exception is the one raised. *)
Lemma instantiate_first_offence (cls : string) (args : list value)
    (pre post : dict value) (k : string) (v : value) (e : exn) (w : world) :
  dict_wf (pre ++ (k, v) :: post)%list ->
  dict_get "self" (pre ++ (k, v) :: post)%list = None ->
  (forall k' v', In (k', v') pre -> item_error k' v' = None) ->
  item_error k v = Some e ->
  BaseModel.instantiate cls args (pre ++ (k, v) :: post)%list w
  = (with_heap
       (heap w ++ [mk_instance cls
                     (fst (create_attrs (pre ++ (k, v) :: post)
                             (pre ++ (k, v) :: post) []))])%list w,
     Raise e).
Proof.
  intros Hwf Hself Hpre He.
  set (kw := (pre ++ (k, v) :: post)%list) in *.
  assert (kw <> []) as Hne by (unfold kw; destruct pre; discriminate).
  rewrite (instantiate_kwargs _ _ _ _ Hne). unfold create_outcome.
  rewrite Hself. unfold kw at 4.
  rewrite create_attrs_first_raise with (e := e); [reflexivity | |].
  - intros k' v' Hin.
    assert (dict_get k' kw = Some v') as Hkv
      by (apply dict_get_wf_In; [exact Hwf | apply in_or_app; left; exact Hin]).
    pose proof (step_value_item_error kw k' v' Hkv) as S.
    destruct (step_value kw k' v') as [r|e']; [eauto |].
    rewrite (Hpre _ _ Hin) in S. discriminate.
  - assert (dict_get k kw = Some v) as Hkv
      by (apply dict_get_wf_In; [exact Hwf | apply in_or_app; right; left; reflexivity]).
    pose proof (step_value_item_error kw k v Hkv) as S.
    destruct (step_value kw k v) as [r|e']; congruence.
Qed.

(** An ordinary item offends only as a timestamp field. *)
Lemma item_error_plain (k : string) (v : value) :
  special_key k = false ->
  item_error k v
  = if timestamp_key k
    then match fromisoformat v with Ok _ => None | Raise e => Some e end
    else None.
Proof.
  intros Hs. destruct (special_key_false _ Hs) as (_ & H1 & H2).
  unfold item_error. rewrite H1, H2.
  destruct (String.eqb k "__class__") eqn:Ec; [| reflexivity].
  apply String.eqb_eq in Ec. subst k. reflexivity.
Qed.

End Outcome.

(** * The claims *)




(** C5. A fresh entity has [created_at] equal to [updated_at] (the clock
    reading taken at construction) and an [id] in the shape of a
    version-4 UUID. *)
Theorem fresh_entity_shape {L : IsoParser} (cls : string) (args : list value)
    (w : world) :
  exists w' self o id t,
    BaseModel.instantiate cls args [] w = (w', Ok self) /\
    heap w' !! self = Some o /\
    attr o "id" = Some (VStr id) /\
    UUID.uuid4_shaped id = true /\
    attr o "created_at" = Some (VDatetime t) /\
    attr o "updated_at" = Some (VDatetime t) /\
    t = clock w (clock_reads w).
Proof.
  eexists _, _, _, _, _. split; [apply instantiate_fresh |].
  split; [apply lookup_alloc |].
  split; [reflexivity |].
  split; [apply UUIDFacts.uuid4_str_shaped |].
  repeat split.
Qed.

(** C7. Fresh construction enters the new entity in the storage registry
    under its composite key; construction from a non-empty mapping leaves
    the registry as it was, whether it succeeds or raises. *)
Theorem registration_only_when_fresh {L : IsoParser} (cls : string)
    (args : list value) (w : world) :
  (exists w' self o id,
     BaseModel.instantiate cls args [] w = (w', Ok self) /\
     heap w' !! self = Some o /\
     attr o "id" = Some (VStr id) /\
     storage_objects w'
       = dict_set (FileStorage.composite_key cls id) self (storage_objects w) /\
     dict_get (FileStorage.composite_key cls id) (storage_objects w') = Some self) /\
  (forall kw : dict value,
     kw <> [] ->
     storage_objects (fst (BaseModel.instantiate cls args kw w))
       = storage_objects w).
Proof.
  split.
  - eexists _, _, _, _. split; [apply instantiate_fresh |].
    split; [apply lookup_alloc |].
    split; [reflexivity |].
    split; [reflexivity |].
    cbn [storage_objects]. apply dict_get_set_eq.
  - intros kw Hne. rewrite (instantiate_kwargs _ _ _ _ Hne). reflexivity.
Qed.

Lemma registration_only_when_fresh_witness :
  Demo.user_1809 <> [] /\
  storage_objects
    (fst (BaseModel.instantiate (L := iso_reader) "User" [] Demo.user_1809
            Demo.world0))
  = storage_objects Demo.world0.
Proof.
  split; [discriminate |].
  exact (proj2 (registration_only_when_fresh (L := iso_reader) "User" []
                  Demo.world0)
           Demo.user_1809 ltac:(discriminate)).
Defined.

(** C8. [to_dict] leaves the world, and so the entity's attributes, as
    they were; a second call returns what the first returned. The mapping
    returned holds the class name under [__class__], the two timestamps
    in ISO format, and every other attribute with the entity's own value. *)
Theorem to_dict_idempotent (w : world) (self : addr) (w1 w2 : world)
    (r1 r2 : result (dict value)) :
  BaseModel.to_dict self w = (w1, r1) ->
  BaseModel.to_dict self w1 = (w2, r2) ->
  w1 = w /\ w2 = w /\ r2 = r1 /\
  (forall m, r1 = Ok m ->
     exists o c u,
       heap w !! self = Some o /\
       attr o "created_at" = Some (VDatetime c) /\
       attr o "updated_at" = Some (VDatetime u) /\
       dict_get "__class__" m = Some (VStr (inst_class o)) /\
       dict_get "created_at" m = Some (VStr (Datetime.isoformat c)) /\
       dict_get "updated_at" m = Some (VStr (Datetime.isoformat u)) /\
       (forall k, k <> "__class__" -> k <> "created_at" -> k <> "updated_at" ->
                  dict_get k m = attr o k)).
Proof.
  intros H1 H2.
  pose proof (to_dict_frame w self) as F1. rewrite H1 in F1. cbn in F1. subst w1.
  rewrite H1 in H2. injection H2 as <- <-.
  repeat split; try reflexivity.
  intros m ->. destruct (heap w !! self) as [o|] eqn:Hlive.
  2:{ rewrite (to_dict_dangling _ _ Hlive) in H1. discriminate. }
  rewrite (to_dict_run _ _ _ Hlive) in H1. injection H1 as Hm.
  destruct (mapping_of_Ok _ _ Hm) as (c & u & Hc & Hu & ->).
  exists o, c, u. split; [reflexivity |].
  split; [exact Hc |]. split; [exact Hu |].
  split; [rewrite dict_get_update3; reflexivity |].
  split; [rewrite dict_get_update3; reflexivity |].
  split; [rewrite dict_get_update3; reflexivity |].
  intros k Hk1 Hk2 Hk3. rewrite dict_get_update3.
  apply not_eq_sym in Hk1, Hk2, Hk3.
  apply String.eqb_neq in Hk1, Hk2, Hk3. rewrite Hk1, Hk2, Hk3. reflexivity.
Qed.

Lemma to_dict_idempotent_witness :
  BaseModel.to_dict 0%nat Demo.world1
    = (Demo.world1, Ok Demo.user_mapping) /\
  dict_get "email" Demo.user_mapping = attr Demo.user_cell "email".
Proof.
  split; [reflexivity |].
  destruct (to_dict_idempotent Demo.world1 0%nat Demo.world1 Demo.world1
              (Ok Demo.user_mapping) (Ok Demo.user_mapping)
              eq_refl eq_refl) as (_ & _ & _ & H).
  destruct (H _ eq_refl) as (o & c & u & Ho & _ & _ & _ & _ & _ & Hk).
  injection Ho as <-. apply Hk; discriminate.
Defined.

(** C2, as stated, fails on both counts: a mapping whose [id] is [None]
    is accepted, and the instance carries [id = None]; and a mapping whose
    [updated_at] is [None] is rejected with ValueError, not TypeError,
    when its [created_at], met first, is an invalid string. *)
Lemma null_field_not_always_type_error :
  (exists w' self o,
     BaseModel.instantiate (L := iso_reader) "BaseModel" [] [("id", VNone)]
       Demo.world0 = (w', Ok self) /\
     heap w' !! self = Some o /\ attr o "id" = Some VNone) /\
  (exists w',
     BaseModel.instantiate (L := iso_reader) "BaseModel" []
       [("created_at", VStr "1809"); ("updated_at", VNone)] Demo.world0
     = (w', Raise ValueError)).
Proof.
  split.
  - exists (with_heap [mk_instance "BaseModel" [("id", VNone)]] Demo.world0),
           0%nat, (mk_instance "BaseModel" [("id", VNone)]).
    repeat split.
  - eexists. vm_compute. reflexivity.
Qed.

(** C2, amended. In a mapping with pairwise different keys and no keyword
    [self], a [None] in [created_at] or [updated_at] makes the
    construction raise TypeError when no item before it in the order of
    the mapping offends. In a mapping whose keys are ordinary attribute
    names, such a [None] makes the construction fail in any case, with
    TypeError, or with ValueError when a timestamp field holds a string
    that the parser does not accept. Nothing is said of a [None] in
    another field. *)
Theorem null_timestamp_rejected {L : IsoParser} (cls : string)
    (args : list value) (w : world) :
  (forall (pre post : dict value) (k : string),
     dict_wf (pre ++ (k, VNone) :: post)%list ->
     dict_get "self" (pre ++ (k, VNone) :: post)%list = None ->
     timestamp_key k = true ->
     (forall k' v', In (k', v') pre -> item_error k' v' = None) ->
     exists w',
       BaseModel.instantiate cls args (pre ++ (k, VNone) :: post)%list w
       = (w', Raise TypeError)) /\
  (forall kw : dict value,
     plain_keys kw = true ->
     (exists k, timestamp_key k = true /\ dict_get k kw = Some VNone) ->
     exists w' e,
       BaseModel.instantiate cls args kw w = (w', Raise e) /\
       (e = TypeError \/
        e = ValueError /\
        exists k' s, timestamp_key k' = true /\
                     dict_get k' kw = Some (VStr s) /\ iso_parse s = None)).
Proof.
  split.
  - intros pre post k Hwf Hself Hk Hpre.
    assert (item_error k VNone = Some TypeError) as He.
    { destruct (timestamp_key_plain _ Hk) as [Hs _].
      rewrite (item_error_plain _ _ Hs), Hk. reflexivity. }
    rewrite (instantiate_first_offence cls args pre post k VNone TypeError w
               Hwf Hself Hpre He).
    eexists. reflexivity.
  - intros kw Hp (k & Hk & Hv).
    destruct (instantiate_rejects cls args kw w k VNone TypeError Hk Hv eq_refl)
      as (w' & e & E).
    exists w', e. split; [exact E |].
    assert (kw <> []) as Hne by (intros ->; discriminate).
    destruct (instantiate_raise _ _ _ _ _ _ Hne Hp E) as (k' & x & Hk' & Hx & Hf).
    destruct (fromisoformat_error _ _ Hf) as [[_ ->] | (s & -> & Hs & ->)].
    + left. reflexivity.
    + right. split; [reflexivity |]. exists k', s. repeat split; assumption.
Qed.

Lemma null_timestamp_rejected_witness :
  dict_wf ([("id", VNone)] ++ ("created_at", VNone) :: [("updated_at", VNone)])%list /\
  dict_get "self"
    ([("id", VNone)] ++ ("created_at", VNone) :: [("updated_at", VNone)])%list
  = None /\
  timestamp_key "created_at" = true /\
  (forall k' v', In (k', v') [("id", VNone)] ->
                 item_error (L := iso_reader) k' v' = None) /\
  exists w',
    BaseModel.instantiate (L := iso_reader) "User" []
      ([("id", VNone)] ++ ("created_at", VNone) :: [("updated_at", VNone)])%list
      Demo.world0
    = (w', Raise TypeError).
Proof.
  assert (dict_wf ([("id", VNone)] ++ ("created_at", VNone)
                     :: [("updated_at", VNone)])%list) as Hwf
    by (unfold dict_wf; apply (bool_decide_unpack _); vm_compute; exact I).
  assert (forall k' v', In (k', v') [("id", VNone)] ->
                        item_error (L := iso_reader) k' v' = None) as Hpre
    by (intros k' v' [[= <- <-] | []]; reflexivity).
  split; [exact Hwf |]. split; [reflexivity |]. split; [reflexivity |].
  split; [exact Hpre |].
  exact (proj1 (null_timestamp_rejected (L := iso_reader) "User" [] Demo.world0)
           [("id", VNone)] [("updated_at", VNone)] "created_at"
           Hwf eq_refl eq_refl Hpre).
Defined.

(** C4, as stated, fails: [updated_at] is an invalid ISO string, yet the
    construction raises TypeError, because [created_at], met first, is not
    a string. *)
Lemma invalid_string_after_non_string :
  dict_get "updated_at" [("created_at", VNone); ("updated_at", VStr "2002")]
    = Some (VStr "2002") /\
  iso_parse (IsoParser := iso_reader) "2002" = None /\
  exists w',
    BaseModel.instantiate (L := iso_reader) "User" []
      [("created_at", VNone); ("updated_at", VStr "2002")] Demo.world0
    = (w', Raise TypeError).
Proof.
  split; [reflexivity |]. split; [reflexivity |].
  eexists. vm_compute. reflexivity.
Qed.

(** C4, amended. In a mapping whose keys are ordinary attribute names and
    whose supplied timestamp fields are all strings: if the parser does
    not accept one of them the construction raises ValueError; if it
    accepts them all the construction succeeds, and each supplied
    timestamp field holds the parsed timestamp, not the string. *)
Theorem invalid_timestamp_string_rejected {L : IsoParser} (cls : string)
    (args : list value) (kw : dict value) (w : world) :
  plain_keys kw = true ->
  (forall k v, timestamp_key k = true -> dict_get k kw = Some v ->
               is_str v = true) ->
  ((exists k s, timestamp_key k = true /\ dict_get k kw = Some (VStr s) /\
                iso_parse s = None) ->
   exists w', BaseModel.instantiate cls args kw w = (w', Raise ValueError)) /\
  (kw <> [] ->
   (forall k s, timestamp_key k = true -> dict_get k kw = Some (VStr s) ->
                iso_parse s <> None) ->
   exists w' self o,
     BaseModel.instantiate cls args kw w = (w', Ok self) /\
     heap w' !! self = Some o /\
     (forall k s, timestamp_key k = true -> dict_get k kw = Some (VStr s) ->
        exists t, iso_parse s = Some t /\ attr o k = Some (VDatetime t))).
Proof.
  intros Hp Hstr. split.
  - intros (k & s & Hk & Hv & Hs).
    assert (fromisoformat (VStr s) = Raise ValueError) as Hf
      by (rewrite fromisoformat_str, Hs; reflexivity).
    destruct (instantiate_rejects cls args kw w k _ _ Hk Hv Hf) as (w' & e & E).
    exists w'. rewrite E. do 2 f_equal.
    assert (kw <> []) as Hne by (intros ->; discriminate).
    destruct (instantiate_raise _ _ _ _ _ _ Hne Hp E) as (k' & x & Hk' & Hx & Hf').
    destruct (fromisoformat_error _ _ Hf') as [[Hn _] | (s' & _ & _ & ->)];
      [| reflexivity].
    rewrite (Hstr _ _ Hk' Hx) in Hn. discriminate.
  - intros Hne Hvalid.
    assert (forall k v, timestamp_key k = true -> dict_get k kw = Some v ->
              exists t, fromisoformat v = Ok t) as Hts.
    { intros k v Hk Hv. pose proof (Hstr _ _ Hk Hv) as Hs.
      destruct v; try discriminate Hs. rewrite fromisoformat_str.
      destruct (iso_parse s) eqn:E; [eauto |].
      exfalso. exact (Hvalid _ _ Hk Hv E). }
    destruct (instantiate_ok cls args kw w Hne Hp Hts) as [Hinst Hok].
    eexists _, _, _. split; [exact Hinst |].
    split; [apply heap_after_instantiate |].
    intros k s Hk Hv. destruct (iso_parse s) as [t|] eqn:E.
    + exists t. split; [reflexivity |].
      apply (created_timestamp kw [] k (VStr s)); try assumption.
      rewrite fromisoformat_str, E. reflexivity.
    + exfalso. exact (Hvalid _ _ Hk Hv E).
Qed.

Lemma invalid_timestamp_string_rejected_witness :
  plain_keys [("id", VStr "1809"); ("created_at", VStr "1809");
              ("updated_at", VStr "2002")] = true /\
  (forall k v, timestamp_key k = true ->
     dict_get k [("id", VStr "1809"); ("created_at", VStr "1809");
                 ("updated_at", VStr "2002")] = Some v ->
     is_str v = true) /\
  (exists k s, timestamp_key k = true /\
     dict_get k [("id", VStr "1809"); ("created_at", VStr "1809");
                 ("updated_at", VStr "2002")] = Some (VStr s) /\
     iso_parse (IsoParser := iso_reader) s = None) /\
  exists w',
    BaseModel.instantiate (L := iso_reader) "User" []
      [("id", VStr "1809"); ("created_at", VStr "1809");
       ("updated_at", VStr "2002")] Demo.world0
    = (w', Raise ValueError).
Proof.
  assert (forall k v, timestamp_key k = true ->
     dict_get k [("id", VStr "1809"); ("created_at", VStr "1809");
                 ("updated_at", VStr "2002")] = Some v ->
     is_str v = true) as H1.
  { intros k v Hk. destruct (timestamp_key_cases _ Hk) as [-> | ->];
      intros [= <-]; reflexivity. }
  assert (exists k s, timestamp_key k = true /\
     dict_get k [("id", VStr "1809"); ("created_at", VStr "1809");
                 ("updated_at", VStr "2002")] = Some (VStr s) /\
     iso_parse (IsoParser := iso_reader) s = None) as H2
    by (exists "created_at", "1809"; repeat split).
  split; [reflexivity |]. split; [exact H1 |]. split; [exact H2 |].
  exact (proj1 (invalid_timestamp_string_rejected (L := iso_reader) "User" []
                  [("id", VStr "1809"); ("created_at", VStr "1809");
                   ("updated_at", VStr "2002")]
                  Demo.world0 eq_refl H1) H2).
Defined.

(** C10, as stated, fails: [updated_at] is not a string, yet the
    construction raises ValueError, because [created_at], met first, is an
    invalid string. *)
Lemma non_string_after_invalid_string :
  dict_get "updated_at" [("created_at", VStr "1809"); ("updated_at", VInt 2002)]
    = Some (VInt 2002) /\
  exists w',
    BaseModel.instantiate (L := iso_reader) "User" []
      [("created_at", VStr "1809"); ("updated_at", VInt 2002)] Demo.world0
    = (w', Raise ValueError).
Proof.
  split; [reflexivity |]. eexists. vm_compute. reflexivity.
Qed.

(** C10, amended. In a mapping with pairwise different keys and no
    keyword [self], a timestamp field whose value is not a string makes
    the construction raise TypeError, instead of copying the value, when
    no item before it in the order of the mapping offends. In a mapping
    whose keys are ordinary attribute names, such a field makes the
    construction fail in any case, with TypeError, or with ValueError
    when a timestamp field holds a string that the parser does not
    accept. *)
Theorem non_string_timestamp_rejected {L : IsoParser} (cls : string)
    (args : list value) (w : world) :
  (forall (pre post : dict value) (k : string) (v : value),
     dict_wf (pre ++ (k, v) :: post)%list ->
     dict_get "self" (pre ++ (k, v) :: post)%list = None ->
     timestamp_key k = true -> is_str v = false ->
     (forall k' v', In (k', v') pre -> item_error k' v' = None) ->
     exists w',
       BaseModel.instantiate cls args (pre ++ (k, v) :: post)%list w
       = (w', Raise TypeError)) /\
  (forall (kw : dict value) (k : string) (v : value),
     plain_keys kw = true ->
     timestamp_key k = true -> dict_get k kw = Some v -> is_str v = false ->
     exists w' e,
       BaseModel.instantiate cls args kw w = (w', Raise e) /\
       (e = TypeError \/
        e = ValueError /\
        exists k' s, timestamp_key k' = true /\
                     dict_get k' kw = Some (VStr s) /\ iso_parse s = None)).
Proof.
  split.
  - intros pre post k v Hwf Hself Hk Hv Hpre.
    assert (item_error k v = Some TypeError) as He.
    { destruct (timestamp_key_plain _ Hk) as [Hs _].
      rewrite (item_error_plain _ _ Hs), Hk, (fromisoformat_not_str _ Hv).
      reflexivity. }
    rewrite (instantiate_first_offence cls args pre post k v TypeError w
               Hwf Hself Hpre He).
    eexists. reflexivity.
  - intros kw k v Hp Hk Hkv Hv.
    destruct (instantiate_rejects cls args kw w k v TypeError Hk Hkv
                (fromisoformat_not_str _ Hv)) as (w' & e & E).
    exists w', e. split; [exact E |].
    assert (kw <> []) as Hne by (intros ->; discriminate).
    destruct (instantiate_raise _ _ _ _ _ _ Hne Hp E) as (k' & x & Hk' & Hx & Hf).
    destruct (fromisoformat_error _ _ Hf) as [[_ ->] | (s & -> & Hs & ->)].
    + left. reflexivity.
    + right. split; [reflexivity |]. exists k', s. repeat split; assumption.
Qed.

Lemma non_string_timestamp_rejected_witness :
  dict_wf ([("id", VStr "1809")] ++ ("created_at", VDatetime Demo.epoch)
             :: [("updated_at", VStr "2002")])%list /\
  dict_get "self"
    ([("id", VStr "1809")] ++ ("created_at", VDatetime Demo.epoch)
       :: [("updated_at", VStr "2002")])%list = None /\
  timestamp_key "created_at" = true /\
  is_str (VDatetime Demo.epoch) = false /\
  (forall k' v', In (k', v') [("id", VStr "1809")] ->
                 item_error (L := iso_reader) k' v' = None) /\
  exists w',
    BaseModel.instantiate (L := iso_reader) "User" []
      ([("id", VStr "1809")] ++ ("created_at", VDatetime Demo.epoch)
         :: [("updated_at", VStr "2002")])%list
      Demo.world0
    = (w', Raise TypeError).
Proof.
  assert (dict_wf ([("id", VStr "1809")] ++ ("created_at", VDatetime Demo.epoch)
                     :: [("updated_at", VStr "2002")])%list) as Hwf
    by (unfold dict_wf; apply (bool_decide_unpack _); vm_compute; exact I).
  assert (forall k' v', In (k', v') [("id", VStr "1809")] ->
                        item_error (L := iso_reader) k' v' = None) as Hpre
    by (intros k' v' [[= <- <-] | []]; reflexivity).
  split; [exact Hwf |]. split; [reflexivity |]. split; [reflexivity |].
  split; [reflexivity |]. split; [exact Hpre |].
  exact (proj1 (non_string_timestamp_rejected (L := iso_reader) "User" []
                  Demo.world0)
           [("id", VStr "1809")] [("updated_at", VStr "2002")] "created_at"
           (VDatetime Demo.epoch) Hwf eq_refl eq_refl eq_refl Hpre).
Defined.

(** * Timestamps across the operations *)







(** C9, as stated, fails: the mapping is not empty and omits [updated_at]
    and [id], yet the construction does not succeed, because the
    [created_at] it supplies is not valid ISO format. *)
Lemma omission_with_invalid_timestamp :
  dict_get "updated_at" [("created_at", VStr "yesterday")] = None /\
  dict_get "id" [("created_at", VStr "yesterday")] = None /\
  exists w',
    BaseModel.instantiate (L := iso_reader) "BaseModel" []
      [("created_at", VStr "yesterday")] Demo.world0 = (w', Raise ValueError).
Proof.
  split; [reflexivity |]. split; [reflexivity |].
  eexists. vm_compute. reflexivity.
Qed.

(** C9, amended. From a non-empty mapping whose keys are ordinary
    attribute names and whose supplied timestamp fields parse, the
    construction succeeds; an attribute the mapping omits is absent from
    the instance; [to_dict] then raises AttributeError if [created_at] or
    [updated_at] was omitted (the mapping holding no entry [to_dict] that
    would hide the method), and [__str__] raises AttributeError if [id]
    was omitted. Whenever [to_dict] returns a mapping, the instance
    carries both timestamps. *)
Theorem omitted_fields_stay_absent {L : IsoParser} (cls : string)
    (args : list value) (kw : dict value) (w : world) :
  kw <> [] ->
  plain_keys kw = true ->
  (forall k v, timestamp_key k = true -> dict_get k kw = Some v ->
               exists t, fromisoformat v = Ok t) ->
  (exists w' self o,
     BaseModel.instantiate cls args kw w = (w', Ok self) /\
     heap w' !! self = Some o /\
     (forall k, dict_get k kw = None -> attr o k = None) /\
     (dict_get "created_at" kw = None \/ dict_get "updated_at" kw = None ->
      dict_get "to_dict" kw = None ->
      attr o "to_dict" = None /\
      BaseModel.to_dict self w' = (w', Raise AttributeError)) /\
     (dict_get "id" kw = None ->
      BaseModel.__str__ self w' = (w', Raise AttributeError))) /\
  (forall (w0 w1 : world) (self0 : addr) (m : dict value),
     BaseModel.to_dict self0 w0 = (w1, Ok m) ->
     exists o c u,
       heap w0 !! self0 = Some o /\
       attr o "created_at" = Some (VDatetime c) /\
       attr o "updated_at" = Some (VDatetime u)).
Proof.
  intros Hne Hp Hts. split.
  - destruct (instantiate_ok cls args kw w Hne Hp Hts) as [Hinst Hok].
    eexists _, _, _. split; [exact Hinst |].
    split; [apply heap_after_instantiate |].
    assert (forall k, dict_get k kw = None ->
              attr (mk_instance cls (fst (create_attrs kw kw []))) k = None)
      as Habs.
    { intros k Hk. unfold attr. cbn [inst_dict].
      rewrite created_absent by assumption. reflexivity. }
    split; [exact Habs |]. split.
    + intros Hmiss Hmeth. split; [apply Habs, Hmeth |].
      rewrite (to_dict_run _ _ _ (heap_after_instantiate _ _ _)).
      f_equal. unfold mapping_of. destruct Hmiss as [Hm | Hm].
      * rewrite (Habs _ Hm). reflexivity.
      * destruct (attr _ "created_at") as [c0|]; [| reflexivity].
        destruct (isoformat c0) as [cs|e] eqn:E.
        -- rewrite (Habs _ Hm). reflexivity.
        -- rewrite (isoformat_Raise _ _ E). reflexivity.
    + intros Hm. rewrite (str_run _ _ _ (heap_after_instantiate _ _ _)).
      rewrite (Habs _ Hm). reflexivity.
  - intros w0 w1 self0 m Hrun.
    destruct (heap w0 !! self0) as [o|] eqn:Hlive.
    2:{ rewrite (to_dict_dangling _ _ Hlive) in Hrun. discriminate. }
    rewrite (to_dict_run _ _ _ Hlive) in Hrun. injection Hrun as _ Hm.
    destruct (mapping_of_Ok _ _ Hm) as (c & u & Hc & Hu & _).
    exists o, c, u. repeat split; assumption.
Qed.

Lemma omitted_fields_stay_absent_witness :
  [("year", VStr "2024")] <> [] /\
  plain_keys [("year", VStr "2024")] = true /\
  (forall k v, timestamp_key k = true ->
     dict_get k [("year", VStr "2024")] = Some v ->
     exists t, fromisoformat (L := iso_reader) v = Ok t) /\
  exists w' self o,
    BaseModel.instantiate (L := iso_reader) "User" [VStr "1809"]
      [("year", VStr "2024")] Demo.world0 = (w', Ok self) /\
    heap w' !! self = Some o /\
    (forall k, dict_get k [("year", VStr "2024")] = None -> attr o k = None) /\
    (dict_get "created_at" [("year", VStr "2024")] = None \/
     dict_get "updated_at" [("year", VStr "2024")] = None ->
     dict_get "to_dict" [("year", VStr "2024")] = None ->
     attr o "to_dict" = None /\
     BaseModel.to_dict self w' = (w', Raise AttributeError)) /\
    (dict_get "id" [("year", VStr "2024")] = None ->
     BaseModel.__str__ self w' = (w', Raise AttributeError)).
Proof.
  assert (forall k v, timestamp_key k = true ->
     dict_get k [("year", VStr "2024")] = Some v ->
     exists t, fromisoformat (L := iso_reader) v = Ok t) as H.
  { intros k v Hk. destruct (timestamp_key_cases _ Hk) as [-> | ->]; discriminate. }
  split; [discriminate |]. split; [reflexivity |]. split; [exact H |].
  exact (proj1 (omitted_fields_stay_absent (L := iso_reader) "User" [VStr "1809"]
                  [("year", VStr "2024")] Demo.world0
                  ltac:(discriminate) eq_refl H)).
Defined.

(** * Further properties of [BaseModel] *)

(** ** More on dictionaries *)

Lemma dict_set_absent {V} (d : dict V) (k : string) (v : V) :
  dict_get k d = None -> dict_set k v d = (d ++ [(k, v)])%list.
Proof.
  induction d as [|[k' v'] d IH]; cbn; [reflexivity |].
  destruct (String.eqb k' k); [discriminate |].
  intros H. rewrite (IH H). reflexivity.
Qed.

Lemma map_fixed {A} (f : A -> A) (l : list A) :
  (forall x, In x l -> f x = x) -> map f l = l.
Proof.
  induction l as [|x l IH]; intros H; [reflexivity |].
  cbn. rewrite (H x (or_introl eq_refl)), IH; [reflexivity |].
  intros y Hy. apply H. right. exact Hy.
Qed.

(** Assigning to a key the dict has rewrites that item where it stands. *)
Lemma dict_set_present {V} (d : dict V) (k : string) (v : V) :
  dict_wf d -> dict_get k d <> None ->
  dict_set k v d
  = map (fun kv => if String.eqb (fst kv) k then (k, v) else kv) d.
Proof.
  unfold dict_wf, dict_keys.
  induction d as [|[k' v'] d IH]; intros Hwf Hk; [contradiction Hk; reflexivity |].
  cbn in Hwf. apply NoDup_cons in Hwf as [Hnotin Hwf].
  cbn [dict_set dict_get map fst] in *.
  destruct (String.eqb k' k) eqn:E.
  - apply String.eqb_eq in E. subst k'. f_equal. symmetry. apply map_fixed.
    intros [k0 v0] Hin. cbn [fst].
    destruct (String.eqb k0 k) eqn:E0; [| reflexivity].
    apply String.eqb_eq in E0. subst k0. exfalso. apply Hnotin.
    apply list_elem_of_In, in_map_iff. exists (k, v0). split; [reflexivity | exact Hin].
  - f_equal. apply IH; assumption.
Qed.

Lemma flat_map_map_single {A B} (f : A -> A) (g : A -> list B) (h : A -> B)
    (l : list A) :
  (forall x, In x l -> g (f x) = [h x]) -> flat_map g (map f l) = map h l.
Proof.
  induction l as [|x l IH]; intros H; [reflexivity |].
  cbn. rewrite (H x (or_introl eq_refl)), IH; [reflexivity |].
  intros y Hy. apply H. right. exact Hy.
Qed.

(** ** From an instance to its mapping and back *)

(** The layout of the mapping built by [to_dict] for an instance without
    an attribute named [__class__]: the instance's items in their order,
    the two timestamps rendered where they stand, then the class name. *)
Lemma mapping_layout (o : instance) (c u : Datetime.datetime) :
  dict_wf (inst_dict o) ->
  attr o "created_at" = Some (VDatetime c) ->
  attr o "updated_at" = Some (VDatetime u) ->
  attr o "__class__" = None ->
  dict_update (inst_dict o)
    [("__class__", VStr (inst_class o));
     ("created_at", VStr (Datetime.isoformat c));
     ("updated_at", VStr (Datetime.isoformat u))]
  = (map (fun kv =>
            if String.eqb (fst kv) "updated_at"
            then ("updated_at", VStr (Datetime.isoformat u))
            else if String.eqb (fst kv) "created_at"
            then ("created_at", VStr (Datetime.isoformat c))
            else kv) (inst_dict o)
     ++ [("__class__", VStr (inst_class o))])%list.
Proof.
  intros Hwf Hc Hu Hk. unfold attr in *. unfold dict_update.
  cbn [fold_left fst snd].
  set (d1 := dict_set "__class__" (VStr (inst_class o)) (inst_dict o)).
  assert (dict_wf d1) as Hwf1 by (apply dict_set_wf, Hwf).
  assert (dict_get "created_at" d1 <> None) as Hc1
    by (unfold d1; rewrite dict_get_set_ne, Hc; discriminate).
  set (d2 := dict_set "created_at" (VStr (Datetime.isoformat c)) d1).
  assert (dict_wf d2) as Hwf2 by (apply dict_set_wf, Hwf1).
  assert (dict_get "updated_at" d2 <> None) as Hu2.
  { unfold d2, d1. rewrite !dict_get_set_ne, Hu; discriminate. }
  rewrite (dict_set_present d2 "updated_at" _ Hwf2 Hu2).
  unfold d2. rewrite (dict_set_present d1 "created_at" _ Hwf1 Hc1).
  unfold d1. rewrite (dict_set_absent _ _ _ Hk).
  rewrite !map_app, map_map. cbn [map fst String.eqb Ascii.eqb Bool.eqb].
  f_equal. apply map_ext. intros [k v]. cbn [fst].
  destruct (String.eqb k "created_at") eqn:E1; cbn [fst].
  - apply String.eqb_eq in E1. subst k. reflexivity.
  - reflexivity.
Qed.


Section Revival.
Context {L : IsoParser}.

(** What the items contribute, in order, when none replaces the
    dictionary. *)
Lemma create_attrs_appends (d : dict value) (items : dict value) :
  forall a : dict value,
  dict_get "__dict__" items = None ->
  NoDup (dict_keys a ++ dict_keys items) ->
  snd (create_attrs d items a) = Ok tt ->
  fst (create_attrs d items a)
  = (a ++ flat_map (fun kv => match step_value d (fst kv) (snd kv) with
                              | Ok (Assign x) => [(fst kv, x)]
                              | _ => []
                              end) items)%list.
Proof.
  induction items as [|[k v] items IH]; intros a Hd Hnd Hok.
  - cbn. rewrite app_nil_r. reflexivity.
  - cbn [create_attrs flat_map fst snd] in *.
    cbn [dict_keys map fst] in Hnd. fold (dict_keys items) in Hnd.
    cbn [dict_get] in Hd.
    destruct (String.eqb k "__dict__") eqn:E0; [discriminate |].
    apply String.eqb_neq in E0.
    destruct (step_value d k v) as [[|x|r]|e] eqn:E; [| | | discriminate];
      cbn [apply_effect] in *.
    + rewrite IH; [reflexivity | exact Hd | | exact Hok].
      apply NoDup_app in Hnd as (Ha & Hdis & Hit).
      apply NoDup_cons in Hit as [_ Hit].
      apply NoDup_app. repeat split; [exact Ha | | exact Hit].
      intros y Hy Hy'. apply (Hdis y Hy). right. exact Hy'.
    + assert (dict_get k a = None) as Hka.
      { apply dict_get_None_keys. intros Hin.
        apply NoDup_app in Hnd as (_ & Hdis & _).
        apply (Hdis k); [apply list_elem_of_In, Hin | left]. }
      rewrite (dict_set_absent _ _ _ Hka) in *.
      rewrite IH; [rewrite <- app_assoc; reflexivity | exact Hd | | exact Hok].
      unfold dict_keys in *. rewrite map_app, <- app_assoc. exact Hnd.
    + contradiction E0. eapply step_value_Replace_key, E.
Qed.

(** The loop of [create], run on the mapping [to_dict] built for an
    instance with ordinary attribute names, rebuilds the instance's
    [__dict__] item for item. *)
Lemma mapping_revives (o : instance) (m : dict value) :
  dict_wf (inst_dict o) ->
  plain_keys (inst_dict o) = true ->
  attr o "__class__" = None ->
  mapping_of o = Ok m ->
  plain_keys m = true /\ create_attrs m m [] = (inst_dict o, Ok tt).
Proof.
  intros Hwf Hplain Hk Hm.
  destruct (mapping_of_Ok _ _ Hm) as (c & u & Hc & Hu & ->).
  pose proof (plain_keys_update3 (inst_dict o) (VStr (inst_class o))
                (VStr (Datetime.isoformat c)) (VStr (Datetime.isoformat u))
                Hplain) as Hpm.
  split; [exact Hpm |].
  set (m := dict_update (inst_dict o) _) in *.
  assert (forall k, dict_get k m
            = if String.eqb "updated_at" k then Some (VStr (Datetime.isoformat u))
              else if String.eqb "created_at" k then Some (VStr (Datetime.isoformat c))
              else if String.eqb "__class__" k then Some (VStr (inst_class o))
              else dict_get k (inst_dict o)) as Hget
    by (intros k; apply dict_get_update3).
  assert (dict_wf m) as Hwfm by (apply dict_update_wf, Hwf).
  assert (snd (create_attrs m m []) = Ok tt) as Hok.
  { apply create_attrs_ok, plain_items_ok; [exact Hpm |].
    intros k v Hts Hx. rewrite Hget in Hx.
    destruct (timestamp_key_cases _ Hts) as [-> | ->];
      cbn [String.eqb Ascii.eqb Bool.eqb] in Hx; injection Hx as <-;
      rewrite fromisoformat_isoformat; eauto. }
  rewrite (surjective_pairing (create_attrs m m [])), Hok. f_equal.
  rewrite (create_attrs_appends m m [] (plain_keys_dict _ Hpm) Hwfm Hok).
  cbn [app].
  unfold m at 2. rewrite (mapping_layout o c u Hwf Hc Hu Hk).
  rewrite flat_map_app.
  rewrite (flat_map_map_single _ _ (fun kv => kv)).
  - rewrite map_id. cbn [flat_map fst snd app]. rewrite step_value_class.
    apply app_nil_r.
  - intros [k v] Hin. cbn [fst snd].
    assert (dict_get k (inst_dict o) = Some v) as Hkv
      by (apply dict_get_wf_In; assumption).
    destruct (String.eqb k "updated_at") eqn:E1.
    { apply String.eqb_eq in E1. subst k. cbn [fst snd].
      unfold attr in Hu. rewrite Hu in Hkv. injection Hkv as <-.
      rewrite (step_value_timestamp_eq m "updated_at" _ (VStr (Datetime.isoformat u)) eq_refl)
        by (rewrite Hget; reflexivity).
      rewrite fromisoformat_isoformat. reflexivity. }
    destruct (String.eqb k "created_at") eqn:E2.
    { apply String.eqb_eq in E2. subst k. cbn [fst snd].
      unfold attr in Hc. rewrite Hc in Hkv. injection Hkv as <-.
      rewrite (step_value_timestamp_eq m "created_at" _ (VStr (Datetime.isoformat c)) eq_refl)
        by (rewrite Hget; reflexivity).
      rewrite fromisoformat_isoformat. reflexivity. }
    cbn [fst snd]. apply String.eqb_neq in E1, E2.
    rewrite step_value_plain; [reflexivity | apply timestamp_key_false; assumption | |].
    + exact (plain_keys_In _ _ _ Hplain Hin).
    + intros ->. unfold attr in Hk. congruence.
Qed.

End Revival.



(** ** Construction, field by field *)

(** X1. From a non-empty mapping with pairwise different keys, all of
    them ordinary attribute names, whose supplied timestamp fields parse,
    construction succeeds, and the new instance is of the class called,
    whatever the mapping holds under [__class__]; it has no attribute
    [__class__]; a supplied timestamp field holds the parsed timestamp,
    any other supplied field the supplied value, and a field the mapping
    lacks is absent. *)
Theorem reconstruct_fieldwise {L : IsoParser} (cls : string)
    (args : list value) (kw : dict value) (w : world) :
  kw <> [] ->
  dict_wf kw ->
  plain_keys kw = true ->
  (forall k v, timestamp_key k = true -> dict_get k kw = Some v ->
               exists t, fromisoformat v = Ok t) ->
  exists w' self o,
    BaseModel.instantiate cls args kw w = (w', Ok self) /\
    heap w' !! self = Some o /\
    inst_class o = cls /\
    dict_wf (inst_dict o) /\
    forall k,
      attr o k
      = if String.eqb k "__class__" then None
        else match dict_get k kw with
             | None => None
             | Some v =>
                 if timestamp_key k
                 then match fromisoformat v with
                      | Ok t => Some (VDatetime t)
                      | Raise _ => None
                      end
                 else Some v
             end.
Proof.
  intros Hne Hwf Hp Hts.
  destruct (instantiate_ok cls args kw w Hne Hp Hts) as [Hinst Hok].
  eexists _, _, _. split; [exact Hinst |].
  split; [apply heap_after_instantiate |].
  split; [reflexivity |].
  split; [apply create_attrs_wf; [apply plain_keys_dict, Hp | apply NoDup_nil_2] |].
  intros k. unfold attr. cbn [inst_dict].
  destruct (String.eqb k "__class__") eqn:Ec.
  { apply String.eqb_eq in Ec. subst k.
    rewrite create_attrs_class by (apply plain_keys_dict, Hp). reflexivity. }
  apply String.eqb_neq in Ec.
  destruct (dict_get k kw) as [v|] eqn:Hv;
    [| rewrite created_absent by assumption; reflexivity].
  destruct (timestamp_key k) eqn:Hk.
  - destruct (Hts _ _ Hk Hv) as [t Ht]. rewrite Ht.
    exact (created_timestamp kw [] k v t Hp Hok Hk Hv Ht).
  - apply created_plain; assumption.
Qed.

Lemma reconstruct_fieldwise_witness :
  Demo.user_1809 <> [] /\
  dict_wf Demo.user_1809 /\
  plain_keys Demo.user_1809 = true /\
  exists w' self o,
    BaseModel.instantiate (L := iso_reader) "BaseModel" [] Demo.user_1809
      Demo.world0 = (w', Ok self) /\
    heap w' !! self = Some o /\
    inst_class o = "BaseModel" /\
    dict_wf (inst_dict o) /\
    forall k,
      attr o k
      = if String.eqb k "__class__" then None
        else match dict_get k Demo.user_1809 with
             | None => None
             | Some v =>
                 if timestamp_key k
                 then match fromisoformat (L := iso_reader) v with
                      | Ok t => Some (VDatetime t)
                      | Raise _ => None
                      end
                 else Some v
             end.
Proof.
  assert (dict_wf Demo.user_1809) as Hwf
    by (unfold dict_wf; apply (bool_decide_unpack _); vm_compute; exact I).
  split; [discriminate |]. split; [exact Hwf |]. split; [reflexivity |].
  apply (reconstruct_fieldwise (L := iso_reader) "BaseModel" [] Demo.user_1809
           Demo.world0); [discriminate | exact Hwf | reflexivity |].
  intros k v Hk. destruct (timestamp_key_cases _ Hk) as [-> | ->];
    intros [= <-]; eexists; vm_compute; reflexivity.
Defined.



(** X3. The exception of a construction from a mapping with pairwise
    different keys and no keyword [self] is that of the first item that
    offends, in the order of the mapping: a timestamp field that
    [fromisoformat] rejects (TypeError or ValueError), the key
    [__weakref__] (AttributeError), or the key [__dict__] with a value
    that is not a dictionary (TypeError). If no item before an item
    offends and the item offends with [e], the construction raises [e],
    whatever comes after. *)
Theorem first_offending_field_decides {L : IsoParser} (cls : string)
    (args : list value) (pre post : dict value) (k : string) (v : value)
    (e : exn) (w : world) :
  dict_wf (pre ++ (k, v) :: post)%list ->
  dict_get "self" (pre ++ (k, v) :: post)%list = None ->
  (forall k' v', In (k', v') pre -> item_error k' v' = None) ->
  item_error k v = Some e ->
  exists w',
    BaseModel.instantiate cls args (pre ++ (k, v) :: post)%list w
    = (w', Raise e).
Proof.
  intros Hwf Hself Hpre He.
  rewrite (instantiate_first_offence cls args pre post k v e w Hwf Hself Hpre He).
  eexists. reflexivity.
Qed.

Lemma first_offending_field_decides_witness :
  dict_wf ([("id", VStr "1809"); ("created_at", VStr "2024-01-14T17:07:00")]
           ++ ("__weakref__", VNone) :: [("updated_at", VNone)])%list /\
  dict_get "self"
    ([("id", VStr "1809"); ("created_at", VStr "2024-01-14T17:07:00")]
     ++ ("__weakref__", VNone) :: [("updated_at", VNone)])%list = None /\
  item_error (L := iso_reader) "__weakref__" VNone = Some AttributeError /\
  exists w',
    BaseModel.instantiate (L := iso_reader) "User" []
      ([("id", VStr "1809"); ("created_at", VStr "2024-01-14T17:07:00")]
       ++ ("__weakref__", VNone) :: [("updated_at", VNone)])%list
      Demo.world0
    = (w', Raise AttributeError).
Proof.
  assert (dict_wf ([("id", VStr "1809"); ("created_at", VStr "2024-01-14T17:07:00")]
           ++ ("__weakref__", VNone) :: [("updated_at", VNone)])%list)
    as Hwf by (unfold dict_wf; apply (bool_decide_unpack _); vm_compute; exact I).
  split; [exact Hwf |]. split; [reflexivity |]. split; [reflexivity |].
  apply (first_offending_field_decides (L := iso_reader) "User" []
           [("id", VStr "1809"); ("created_at", VStr "2024-01-14T17:07:00")]
           [("updated_at", VNone)] "__weakref__" VNone AttributeError
           Demo.world0 Hwf eq_refl); [| reflexivity].
  intros k' v' [[= <- <-] | [[= <- <-] | []]]; vm_compute; reflexivity.
Defined.

(** ** The mapping of [to_dict] *)

(** X5. The mapping [to_dict] returns has the keys of the instance, in the
    order of the instance, followed by [__class__] unless the instance
    has an attribute of that name; its keys are pairwise different when
    those of the instance are. *)
Theorem to_dict_keys (w : world) (self : addr) (o : instance) (w1 : world)
    (m : dict value) :
  heap w !! self = Some o ->
  BaseModel.to_dict self w = (w1, Ok m) ->
  dict_keys m
  = match attr o "__class__" with
    | Some _ => dict_keys (inst_dict o)
    | None => (dict_keys (inst_dict o) ++ ["__class__"])%list
    end /\
  (dict_wf (inst_dict o) -> dict_wf m).
Proof.
  intros Hlive Hrun. rewrite (to_dict_run _ _ _ Hlive) in Hrun.
  injection Hrun as _ Hm.
  destruct (mapping_of_Ok _ _ Hm) as (c & u & Hc & Hu & ->).
  split; [| apply dict_update_wf].
  unfold dict_update, attr in *. cbn [fold_left fst snd].
  rewrite dict_keys_set, !dict_get_set_ne, Hu by discriminate.
  rewrite dict_keys_set, dict_get_set_ne, Hc by discriminate.
  apply dict_keys_set.
Qed.

Lemma to_dict_keys_witness :
  heap Demo.world1 !! 0%nat = Some Demo.user_cell /\
  BaseModel.to_dict 0%nat Demo.world1 = (Demo.world1, Ok Demo.user_mapping) /\
  dict_keys Demo.user_mapping
  = (dict_keys (inst_dict Demo.user_cell) ++ ["__class__"])%list.
Proof.
  split; [reflexivity |]. split; [reflexivity |].
  exact (proj1 (to_dict_keys Demo.world1 0%nat Demo.user_cell Demo.world1
                  Demo.user_mapping eq_refl eq_refl)).
Defined.

(** X6. If every attribute of the instance other than the two timestamps
    is a string, every value of the mapping [to_dict] returns is a
    string. *)
Theorem to_dict_values_are_strings (w : world) (self : addr) (o : instance)
    (w1 : world) (m : dict value) :
  heap w !! self = Some o ->
  dict_wf (inst_dict o) ->
  BaseModel.to_dict self w = (w1, Ok m) ->
  (forall k v, In (k, v) (inst_dict o) -> timestamp_key k = false ->
               is_str v = true) ->
  forall k v, In (k, v) m -> is_str v = true.
Proof.
  intros Hlive Hwf Hrun Hstr k v Hin.
  rewrite (to_dict_run _ _ _ Hlive) in Hrun. injection Hrun as _ Hm.
  destruct (mapping_of_Ok _ _ Hm) as (c & u & Hc & Hu & ->).
  assert (dict_get k (dict_update (inst_dict o)
            [("__class__", VStr (inst_class o));
             ("created_at", VStr (Datetime.isoformat c));
             ("updated_at", VStr (Datetime.isoformat u))]) = Some v) as Hkv
    by (apply dict_get_wf_In; [apply dict_update_wf, Hwf | exact Hin]).
  rewrite dict_get_update3 in Hkv.
  destruct (String.eqb "updated_at" k) eqn:E1; [injection Hkv as <-; reflexivity |].
  destruct (String.eqb "created_at" k) eqn:E2; [injection Hkv as <-; reflexivity |].
  destruct (String.eqb "__class__" k) eqn:E3; [injection Hkv as <-; reflexivity |].
  apply String.eqb_neq in E1, E2.
  apply (Hstr k v (dict_get_In _ _ _ Hkv)).
  apply timestamp_key_false; congruence.
Qed.

Lemma to_dict_values_are_strings_witness :
  heap Demo.world1 !! 0%nat = Some Demo.user_cell /\
  dict_wf (inst_dict Demo.user_cell) /\
  BaseModel.to_dict 0%nat Demo.world1 = (Demo.world1, Ok Demo.user_mapping) /\
  forall k v, In (k, v) Demo.user_mapping -> is_str v = true.
Proof.
  assert (dict_wf (inst_dict Demo.user_cell)) as Hwf
    by (unfold dict_wf; apply (bool_decide_unpack _); vm_compute; exact I).
  split; [reflexivity |]. split; [exact Hwf |]. split; [reflexivity |].
  apply (to_dict_values_are_strings Demo.world1 0%nat Demo.user_cell Demo.world1
           Demo.user_mapping eq_refl Hwf eq_refl).
  intros k v Hin Hk. cbn in Hin.
  repeat (destruct Hin as [[= <- <-] | Hin]; [first [reflexivity | discriminate Hk] |]).
  destruct Hin.
Defined.

(** ** [__str__] after a construction from a mapping *)

(** X7. For an instance built from a mapping with ordinary attribute
    names as keys that supplies [id], [__str__] succeeds and changes
    nothing; it shows the class called, the supplied [id] and the
    attribute dictionary itself, in which each supplied timestamp is a
    timestamp value and [__class__] does not occur. *)
Theorem str_after_reconstruction {L : IsoParser} (cls : string)
    (args : list value) (kw : dict value) (w : world) (id : value) :
  dict_wf kw ->
  plain_keys kw = true ->
  (forall k v, timestamp_key k = true -> dict_get k kw = Some v ->
               exists t, fromisoformat v = Ok t) ->
  dict_get "id" kw = Some id ->
  exists w' self d,
    BaseModel.instantiate cls args kw w = (w', Ok self) /\
    BaseModel.__str__ self w'
    = (w', Ok [FLit "["; FLit cls; FLit "] ("; FStr id; FLit ") "; FDict d]) /\
    heap w' !! self = Some (mk_instance cls d) /\
    dict_get "__class__" d = None /\
    (forall k v t, timestamp_key k = true -> dict_get k kw = Some v ->
                   fromisoformat v = Ok t -> dict_get k d = Some (VDatetime t)).
Proof.
  intros Hwf Hp Hts Hid.
  assert (kw <> []) as Hne by (intros ->; discriminate).
  destruct (instantiate_ok cls args kw w Hne Hp Hts) as [Hinst Hok].
  eexists _, _, _. split; [exact Hinst |].
  assert (dict_get "id" (fst (create_attrs kw kw [])) = Some id) as Hid'
    by (apply created_plain;
        [exact Hp | exact Hok | exact Hwf | reflexivity | discriminate | exact Hid]).
  split.
  { rewrite (str_run _ _ _ (heap_after_instantiate _ _ _)).
    unfold attr. cbn [inst_dict inst_class]. rewrite Hid'. reflexivity. }
  split; [apply heap_after_instantiate |].
  split; [rewrite create_attrs_class by (apply plain_keys_dict, Hp); reflexivity |].
  intros k v t Hk Hv Ht. exact (created_timestamp kw [] k v t Hp Hok Hk Hv Ht).
Qed.

Lemma str_after_reconstruction_witness :
  dict_wf Demo.user_1809 /\
  plain_keys Demo.user_1809 = true /\
  dict_get "id" Demo.user_1809 = Some (VStr "1809") /\
  exists w' self d,
    BaseModel.instantiate (L := iso_reader) "User" [] Demo.user_1809
      Demo.world0 = (w', Ok self) /\
    BaseModel.__str__ self w'
    = (w', Ok [FLit "["; FLit "User"; FLit "] ("; FStr (VStr "1809"); FLit ") ";
               FDict d]) /\
    heap w' !! self = Some (mk_instance "User" d) /\
    dict_get "__class__" d = None /\
    (forall k v t, timestamp_key k = true -> dict_get k Demo.user_1809 = Some v ->
                   fromisoformat (L := iso_reader) v = Ok t ->
                   dict_get k d = Some (VDatetime t)).
Proof.
  assert (dict_wf Demo.user_1809) as Hwf
    by (unfold dict_wf; apply (bool_decide_unpack _); vm_compute; exact I).
  split; [exact Hwf |]. split; [reflexivity |]. split; [reflexivity |].
  apply (str_after_reconstruction (L := iso_reader) "User" [] Demo.user_1809
           Demo.world0 (VStr "1809") Hwf eq_refl); [| reflexivity].
  intros k v Hk. destruct (timestamp_key_cases _ Hk) as [-> | ->];
    intros [= <-]; eexists; vm_compute; reflexivity.
Defined.

(** ** Operations in sequence *)

(** X8. A fresh instance, its mapping, and an instance rebuilt from that
    mapping: all three steps succeed in every world; the mapping has the
    four entries [id], [created_at], [updated_at], [__class__]; the copy
    is another object with the same class and the same [__dict__]; only
    the first instance is in the registry. *)
Theorem fresh_to_dict_reconstruct {L : IsoParser} (cls : string)
    (args args' : list value) (w : world) :
  exists w1 a m w2 b o id t,
    BaseModel.instantiate cls args [] w = (w1, Ok a) /\
    BaseModel.to_dict a w1 = (w1, Ok m) /\
    m = [("id", VStr id);
         ("created_at", VStr (Datetime.isoformat t));
         ("updated_at", VStr (Datetime.isoformat t));
         ("__class__", VStr cls)] /\
    BaseModel.instantiate cls args' m w1 = (w2, Ok b) /\
    b <> a /\
    heap w2 !! a = Some o /\
    heap w2 !! b = Some o /\
    storage_objects w2 = storage_objects w1 /\
    dict_get (FileStorage.composite_key cls id) (storage_objects w2) = Some a.
Proof.
  set (id := UUID.str (UUID.uuid4_int (urandom w (urandom_reads w)))).
  set (t := clock w (clock_reads w)).
  set (o := mk_instance cls [("id", VStr id); ("created_at", VDatetime t);
                              ("updated_at", VDatetime t)]).
  set (m := [("id", VStr id);
             ("created_at", VStr (Datetime.isoformat t));
             ("updated_at", VStr (Datetime.isoformat t));
             ("__class__", VStr cls)]).
  pose proof (instantiate_fresh cls args w) as Hfresh. cbv zeta in Hfresh.
  fold id t o in Hfresh.
  match type of Hfresh with _ = (?w1', _) => set (w1 := w1') in * end.
  assert (heap w1 !! length (heap w) = Some o) as Hlive by apply lookup_alloc.
  assert (mapping_of o = Ok m) as Hm by reflexivity.
  assert (dict_wf (inst_dict o)) as Hwf
    by (unfold dict_wf; apply (bool_decide_unpack _); vm_compute; exact I).
  exists w1, (length (heap w)), m.
  eexists _, _, o, id, t.
  split; [exact Hfresh |].
  split; [rewrite (to_dict_run _ _ _ Hlive), Hm; reflexivity |].
  split; [reflexivity |].
  rewrite (instantiate_kwargs cls args' m w1 ltac:(discriminate)).
  destruct (mapping_revives o m Hwf eq_refl eq_refl Hm) as [Hpm Hrev].
  rewrite (create_outcome_plain _ _ Hpm), Hrev. cbn [fst snd].
  split; [reflexivity |].
  split; [cbn [heap w1]; rewrite length_app; cbn; lia |].
  cbn [heap with_heap storage_objects].
  split; [apply lookup_app_l_Some, Hlive |].
  split; [apply (lookup_alloc (heap w1) o) |].
  split; [reflexivity |].
  cbn [w1 storage_objects]. apply dict_get_set_eq.
Qed.



(** ** [create] on an instance that exists *)

(** X10. [create], called on a live instance that has no attribute named
    [create] in the method's place, with a mapping whose keys are
    pairwise different ordinary attribute names and whose timestamp
    fields parse, ends normally and updates the instance in place: a
    supplied timestamp field is set to the parsed timestamp, any other
    supplied field except [__class__] to the supplied value, and every
    other attribute, the class and every other instance stay as they
    were. With an empty mapping it changes nothing. *)
Theorem create_updates_in_place {L : IsoParser} (w : world) (self : addr)
    (o : instance) (d : dict value) :
  heap w !! self = Some o ->
  attr o "create" = None ->
  dict_wf d ->
  plain_keys d = true ->
  (forall k v, timestamp_key k = true -> dict_get k d = Some v ->
               exists t, fromisoformat v = Ok t) ->
  exists w' o',
    BaseModel.create self d w = (w', Ok tt) /\
    heap w' !! self = Some o' /\
    inst_class o' = inst_class o /\
    (forall a, a <> self -> heap w' !! a = heap w !! a) /\
    (d = [] -> w' = w) /\
    forall k,
      attr o' k
      = if String.eqb k "__class__" then attr o k
        else match dict_get k d with
             | None => attr o k
             | Some v =>
                 if timestamp_key k
                 then match fromisoformat v with
                      | Ok t => Some (VDatetime t)
                      | Raise _ => attr o k
                      end
                 else Some v
             end.
Proof.
  intros Hlive _ Hwf Hp Hts.
  assert (snd (create_attrs d d (inst_dict o)) = Ok tt) as Hok
    by (apply create_attrs_ok, plain_items_ok; assumption).
  rewrite (create_call_run _ _ _ _ Hlive), (create_outcome_plain _ _ Hp), Hok.
  eexists _, _. split; [reflexivity |].
  split; [apply (lookup_with_heap_insert _ _ _ _ Hlive) |].
  split; [reflexivity |].
  split; [intros a Ha; cbn [heap with_heap]; apply list_lookup_insert_ne; congruence |].
  split; [intros ->; cbn [create_attrs fst]; apply with_heap_same, Hlive |].
  intros k. unfold attr. cbn [inst_dict].
  destruct (String.eqb k "__class__") eqn:Ec.
  { apply String.eqb_eq in Ec. subst k.
    apply create_attrs_class, plain_keys_dict, Hp. }
  apply String.eqb_neq in Ec.
  destruct (dict_get k d) as [v|] eqn:Hv; [| apply created_absent; assumption].
  destruct (timestamp_key k) eqn:Hk.
  - destruct (Hts _ _ Hk Hv) as [t Ht]. rewrite Ht.
    exact (created_timestamp d _ k v t Hp Hok Hk Hv Ht).
  - apply created_plain; assumption.
Qed.

Lemma create_updates_in_place_witness :
  heap Demo.world1 !! 0%nat = Some Demo.user_cell /\
  attr Demo.user_cell "create" = None /\
  dict_wf [("email", VStr "new@mail.com"); ("__class__", VStr "Place")] /\
  plain_keys [("email", VStr "new@mail.com"); ("__class__", VStr "Place")]
    = true /\
  exists w' o',
    BaseModel.create (L := iso_reader) 0%nat
      [("email", VStr "new@mail.com"); ("__class__", VStr "Place")] Demo.world1
    = (w', Ok tt) /\
    heap w' !! 0%nat = Some o' /\
    inst_class o' = "User" /\
    attr o' "email" = Some (VStr "new@mail.com") /\
    attr o' "id" = Some (VStr "1809") /\
    attr o' "__class__" = None.
Proof.
  assert (dict_wf [("email", VStr "new@mail.com"); ("__class__", VStr "Place")])
    as Hwf by (unfold dict_wf; apply (bool_decide_unpack _); vm_compute; exact I).
  split; [reflexivity |]. split; [reflexivity |]. split; [exact Hwf |].
  split; [reflexivity |].
  destruct (create_updates_in_place (L := iso_reader) Demo.world1 0%nat
              Demo.user_cell
              [("email", VStr "new@mail.com"); ("__class__", VStr "Place")]
              eq_refl eq_refl Hwf eq_refl) as (w' & o' & E & Hl & Hc & _ & _ & Hk).
  { intros k v Hk. destruct (timestamp_key_cases _ Hk) as [-> | ->]; discriminate. }
  exists w', o'. split; [exact E |]. split; [exact Hl |]. split; [exact Hc |].
  rewrite !Hk. repeat split.
Defined.

(** X11. A mapping whose only entry is [__class__] is not empty, so the
    constructor takes the path of [create] and generates nothing: the new
    instance has an empty [__dict__], no [id] and no timestamps, is of the
    class called and not registered, and both [to_dict] and [__str__]
    raise AttributeError on it. *)
Theorem discriminator_only_mapping {L : IsoParser} (cls : string)
    (args : list value) (v : value) (w : world) :
  exists w' self,
    BaseModel.instantiate cls args [("__class__", v)] w = (w', Ok self) /\
    heap w' !! self = Some (mk_instance cls []) /\
    storage_objects w' = storage_objects w /\
    clock_reads w' = clock_reads w /\
    urandom_reads w' = urandom_reads w /\
    BaseModel.to_dict self w' = (w', Raise AttributeError) /\
    BaseModel.__str__ self w' = (w', Raise AttributeError).
Proof.
  rewrite (instantiate_kwargs cls args [("__class__", v)] w ltac:(discriminate)).
  unfold create_outcome. cbn [dict_get String.eqb Ascii.eqb Bool.eqb create_attrs].
  rewrite step_value_class. cbn [fst snd apply_effect].
  eexists _, _. split; [reflexivity |].
  assert (heap (with_heap (heap w ++ [mk_instance cls []])%list w)
            !! length (heap w) = Some (mk_instance cls [])) as Hlive
    by apply lookup_alloc.
  split; [exact Hlive |].
  split; [reflexivity |]. split; [reflexivity |]. split; [reflexivity |].
  split.
  - rewrite (to_dict_run _ _ _ Hlive). reflexivity.
  - rewrite (str_run _ _ _ Hlive). reflexivity.
Qed.

(** ** Keywords that are not stored as attributes *)

(** X12. A keyword named [self] cannot be bound: calling the class with a
    mapping that has the key [self] raises TypeError, whatever else the
    mapping holds, and the registry and the oracles are left alone; and
    [create] called with such a mapping on a live instance raises
    TypeError and leaves the world as it was. *)
Theorem keyword_self_rejected {L : IsoParser} (cls : string)
    (args : list value) (kw : dict value) (v : value) (w : world) :
  dict_get "self" kw = Some v ->
  (exists w',
     BaseModel.instantiate cls args kw w = (w', Raise TypeError) /\
     storage_objects w' = storage_objects w /\
     clock_reads w' = clock_reads w /\
     urandom_reads w' = urandom_reads w /\
     (forall a o, heap w !! a = Some o -> heap w' !! a = Some o)) /\
  (forall self o, heap w !! self = Some o ->
     BaseModel.create self kw w = (w, Raise TypeError)).
Proof.
  intros Hself. split.
  - assert (kw <> []) as Hne by (intros ->; discriminate).
    rewrite (instantiate_kwargs _ _ _ _ Hne). unfold create_outcome.
    rewrite Hself. cbn [fst snd]. eexists. split; [reflexivity |].
    cbn [heap with_heap storage_objects clock_reads urandom_reads].
    repeat split. intros a o Hlive. apply lookup_app_l_Some, Hlive.
  - intros self o Hlive. rewrite (create_call_run _ _ _ _ Hlive).
    unfold create_outcome. rewrite Hself. cbn [fst snd].
    rewrite (with_heap_same _ _ _ Hlive). reflexivity.
Qed.

Lemma keyword_self_rejected_witness :
  dict_get "self" [("id", VStr "1809"); ("self", VInt 7)] = Some (VInt 7) /\
  exists w',
    BaseModel.instantiate (L := iso_reader) "User" []
      [("id", VStr "1809"); ("self", VInt 7)] Demo.world0
    = (w', Raise TypeError) /\
    storage_objects w' = storage_objects Demo.world0.
Proof.
  split; [reflexivity |].
  destruct (proj1 (keyword_self_rejected (L := iso_reader) "User" []
                     [("id", VStr "1809"); ("self", VInt 7)] (VInt 7)
                     Demo.world0 eq_refl))
    as (w' & E & Ho & _).
  exists w'. split; assumption.
Defined.

Section Descriptors.
Context {L : IsoParser}.

Lemma create_attrs_app (d xs ys : dict value) : forall a : dict value,
  create_attrs d (xs ++ ys)%list a
  = match snd (create_attrs d xs a) with
    | Ok _ => create_attrs d ys (fst (create_attrs d xs a))
    | Raise e => (fst (create_attrs d xs a), Raise e)
    end.
Proof.
  induction xs as [|[k v] xs IH]; intros a; [reflexivity |].
  cbn [app create_attrs]. destruct (step_value d k v) as [f|e]; [apply IH | reflexivity].
Qed.

End Descriptors.

(** X13. The keyword [__dict__] is not stored as an attribute: with a
    dictionary as value it replaces the attribute dictionary of the
    instance, so that, coming last in a mapping none of whose items
    offends, it leaves the instance with the items of that dictionary
    and nothing of what the earlier keywords had set; with any other
    value it makes the construction raise TypeError. *)
Theorem dict_keyword_replaces_attributes {L : IsoParser} (cls : string)
    (args : list value) (pre : dict value) (v : value) (w : world) :
  dict_wf (pre ++ [("__dict__", v)])%list ->
  dict_get "self" (pre ++ [("__dict__", v)])%list = None ->
  (forall k' v', In (k', v') pre -> item_error k' v' = None) ->
  exists w',
    BaseModel.instantiate cls args (pre ++ [("__dict__", v)])%list w
    = (w', match v with
           | VDict _ => Ok (length (heap w))
           | _ => Raise TypeError
           end) /\
    forall a, v = VDict a ->
      heap w' !! length (heap w) = Some (mk_instance cls a).
Proof.
  intros Hwf Hself Hpre.
  set (kw := (pre ++ [("__dict__", v)])%list) in *.
  assert (kw <> []) as Hne by (unfold kw; destruct pre; discriminate).
  assert (forall k' v', In (k', v') pre -> exists r, step_value kw k' v' = Ok r)
    as Hok.
  { intros k' v' Hin.
    assert (dict_get k' kw = Some v') as Hkv
      by (apply dict_get_wf_In; [exact Hwf | apply in_or_app; left; exact Hin]).
    pose proof (step_value_item_error kw k' v' Hkv) as S.
    destruct (step_value kw k' v') as [r|e']; [eauto |].
    rewrite (Hpre _ _ Hin) in S. discriminate. }
  rewrite (instantiate_kwargs _ _ _ _ Hne). unfold create_outcome.
  rewrite Hself. unfold kw at 2 4. rewrite create_attrs_app.
  rewrite (proj2 (create_attrs_ok kw pre []) Hok).
  cbn [create_attrs].
  assert (step_value kw "__dict__" v = setattr_effect "__dict__" v) as ->
    by reflexivity.
  unfold setattr_effect. cbn [String.eqb Ascii.eqb Bool.eqb].
  destruct v; (eexists; split; [reflexivity |]); intros a [= <-].
  cbn [fst apply_effect]. apply heap_after_instantiate.
Qed.

Lemma dict_keyword_replaces_attributes_witness :
  dict_wf ([("id", VStr "1809")]
           ++ [("__dict__", VDict [("email", VStr "abdo@gmail.com")])])%list /\
  dict_get "self"
    ([("id", VStr "1809")]
     ++ [("__dict__", VDict [("email", VStr "abdo@gmail.com")])])%list = None /\
  exists w',
    BaseModel.instantiate (L := iso_reader) "User" []
      ([("id", VStr "1809")]
       ++ [("__dict__", VDict [("email", VStr "abdo@gmail.com")])])%list
      Demo.world0
    = (w', Ok 0%nat) /\
    heap w' !! 0%nat
    = Some (mk_instance "User" [("email", VStr "abdo@gmail.com")]).
Proof.
  assert (dict_wf ([("id", VStr "1809")]
           ++ [("__dict__", VDict [("email", VStr "abdo@gmail.com")])])%list)
    as Hwf by (unfold dict_wf; apply (bool_decide_unpack _); vm_compute; exact I).
  split; [exact Hwf |]. split; [reflexivity |].
  destruct (dict_keyword_replaces_attributes (L := iso_reader) "User" []
              [("id", VStr "1809")]
              (VDict [("email", VStr "abdo@gmail.com")]) Demo.world0
              Hwf eq_refl) as (w' & E & Ha).
  { intros k' v' [[= <- <-] | []]. reflexivity. }
  exists w'. split; [exact E |]. exact (Ha _ eq_refl).
Defined.
